(** * NTVDM emulator core (subsystems/ntvdm/emulator.c)

    A shallow embedding of the memory callbacks, the exception report, the
    execution entry points and the initialisation routine of the ReactOS
    virtual DOS machine, together with the properties of the design
    document that concern them.

    The file-scope variables of emulator.c ([BaseAddress], [VdmRunning],
    [A20Line], [EmulatorContext]) are threaded explicitly in a record
    [globals].  Everything emulator.c calls but does not define (the VGA
    adapter, the interrupt controller, the Fast486 engine, the constants of
    emulator.h, the process heap) is an interface the development is
    parametric in; every call through such an interface is appended to a
    trace kept in [globals]. *)

From Stdlib Require Import ZArith List Bool String Ascii Lia.
From Stdlib Require Import Init.Byte.
Import ListNotations.

Local Open Scope Z_scope.
Local Open Scope bool_scope.

(* ================================================================== *)
(** ** Machine integers *)

(** [ULONG] and [DWORD] are 32-bit unsigned: sums and differences wrap. *)
Definition ulong (x : Z) : Z := x mod 2 ^ 32.

Definition is_ulong (x : Z) : Prop := 0 <= x < 2 ^ 32.

(** The C expression [~(1 << 20)] converted to [ULONG]. *)
Definition A20_MASK : Z := ulong (Z.lnot (Z.shiftl 1 20)).

(* ================================================================== *)
(** ** Memory reachable from [BaseAddress]

    [memory] gives the byte found at [BaseAddress + off].  The arena
    itself is the offsets [0 <= off < MAX_ADDRESS]; other offsets are
    whatever the process holds next to the allocation.  Offsets are not
    reduced to the width of a pointer: a copy is what the code does as
    long as its range lies in the arena, which the range test of the
    callbacks ensures whenever address plus length fits 32 bits.  The
    properties about the bytes copied carry that premise. *)

Definition memory : Type := Z -> byte.

(** [rest] with the [size] bytes from offset 0 on set to zero. *)
Definition zero_filled (size : Z) (rest : memory) : memory :=
  fun x => if (0 <=? x) && (size >? x) then x00 else rest x.

(** The [n] bytes starting at [off]. *)
Definition load (m : memory) (off n : Z) : list byte :=
  map (fun i => m (off + Z.of_nat i)) (seq 0 (Z.to_nat n)).

(** [m] with the bytes [bs] placed at [off], [off + 1], ... *)
Fixpoint store (m : memory) (off : Z) (bs : list byte) : memory :=
  match bs with
  | [] => m
  | b :: bs' => fun x => if x =? off then b else store m (off + 1) bs' x
  end.

(* ================================================================== *)
(** ** Outcome of a call *)

Inductive outcome (A : Type) : Type :=
| Returned (a : A)      (* the function returned normally *)
| AssertFailed          (* an ASSERT fired *)
| Undefined.            (* C has no defined behaviour here: a dereference
                           based on a NULL [BaseAddress], or an index past
                           the end of [ExceptionName] *)
Arguments Returned {A} a.
Arguments AssertFailed {A}.
Arguments Undefined {A}.

Definition bind {A B : Type} (o : outcome A) (k : A -> outcome B) : outcome B :=
  match o with
  | Returned a => k a
  | AssertFailed => AssertFailed
  | Undefined => Undefined
  end.

Notation "x <- c1 ;; c2" := (bind c1 (fun x => c2))
  (at level 61, c1 at next level, right associativity).

(* ================================================================== *)
(** ** What emulator.c takes from its headers and collaborators *)

(** Modelled from the spec: emulator.h is not part of the sources at hand,
    so its constants and the segment:offset macro are fields of a class.
    [ASSERT_enabled] tells whether the build keeps [ASSERT] (a debug
    build) or compiles it away. *)
Class emulator_h : Type := {
  MAX_ADDRESS : Z;
  ROM_AREA_START : Z;
  ROM_AREA_END : Z;
  STACK_IP : Z;
  STACK_CS : Z;
  TO_LINEAR : Z -> Z -> Z;
  ASSERT_enabled : bool
}.

(** hardware/vga.h.  The adapter owns a state [V]; both memory entry
    points may change it.  [VgaReadMemory v a n] also yields the [n]
    bytes the adapter puts in the buffer it is handed. *)
Class VgaDevice (V : Type) : Type := {
  VgaGetVideoBaseAddress : V -> Z;
  VgaGetVideoLimitAddress : V -> Z;
  VgaReadMemory : V -> Z -> Z -> list byte * V;
  VgaWriteMemory : V -> Z -> list byte -> Z -> V;
  VgaInitialize : Z -> V -> bool * V;
  VgaReadMemory_fills :
    forall v a n, List.length (fst (VgaReadMemory v a n)) = Z.to_nat n
}.

(** hardware/pic.h. *)
Class PicDevice (P : Type) : Type := {
  PicGetInterrupt : P -> byte * P;
  PicInitialize : P -> P
}.

(** What one call into the Fast486 engine does with the callbacks it was
    given at [Fast486Initialize]: it finishes with a new engine state, or
    it calls one of the callbacks emulator.c defines and goes on with the
    answer. *)
Inductive engine_run (C : Type) : Type :=
| EngineDone (c : C)
| EngineReadMemory (Address : Z) (Buffer : list byte) (Size : Z)
                   (k : list byte -> engine_run C)
| EngineWriteMemory (Address : Z) (Buffer : list byte) (Size : Z)
                    (k : engine_run C)
| EngineIntAcknowledge (k : byte -> engine_run C).
Arguments EngineDone {C} c.
Arguments EngineReadMemory {C} Address Buffer Size k.
Arguments EngineWriteMemory {C} Address Buffer Size k.
Arguments EngineIntAcknowledge {C} k.

(** fast486.h, as far as emulator.c uses it. *)
Class Fast486 (C : Type) : Type := {
  Fast486Initialize : C -> C;
  Fast486StepInto : C -> engine_run C;
  Fast486ExecuteAt : C -> Z -> Z -> C;
  Fast486Interrupt : C -> Z -> C;
  Fast486InterruptSignal : C -> C;
  setIF : C -> Z -> C
}.

(** The process heap.  [HeapAlloc] gives NULL when the request does not
    fit; with [HEAP_ZERO_MEMORY] the [size] bytes of the block are
    zero-filled, without it the block holds what the heap held.  What lies
    around the block is the heap's in either case. *)
Record heap : Type := {
  heap_room : Z;
  heap_content : memory
}.

Definition HEAP_ZERO_MEMORY : Z := 8.

Definition HeapAlloc (h : heap) (flags size : Z) : option memory :=
  if size <=? heap_room h
  then Some (if Z.testbit flags 3 then zero_filled size (heap_content h)
             else heap_content h)
  else None.

(* ================================================================== *)
(** ** Calls that leave emulator.c *)

Inductive fmt_arg : Type :=
| ArgString (s : string)
| ArgWord (w : Z)
| ArgByte (b : byte).

Inductive event : Type :=
| EvVgaReadMemory (Address Size : Z)
| EvVgaWriteMemory (Address : Z) (Buffer : list byte) (Size : Z)
| EvPicGetInterrupt
| EvDisplayMessage (Format : string) (args : list fmt_arg)
| EvWprintf (s : string)
| EvDPrint (s : string)
| EvDebugBreak
| EvHeapAlloc (flags size : Z)
| EvHeapFree
| EvFast486Initialize
| EvFast486StepInto
| EvFast486ExecuteAt (Segment Offset : Z)
| EvFast486Interrupt (Number : Z)
| EvFast486InterruptSignal
| EvSetIF (v : Z)
| EvPicInitialize
| EvPitInitialize
| EvCmosInitialize
| EvSpeakerInitialize
| EvPS2Initialize (ConsoleInput : Z)
| EvVgaInitialize (ConsoleOutput : Z)
| EvRegisterBop (id : Z)
| EvVDDSupInitialize
| EvPS2Cleanup
| EvSpeakerCleanup
| EvCmosCleanup.

Definition is_vga_call (e : event) : bool :=
  match e with
  | EvVgaReadMemory _ _ | EvVgaWriteMemory _ _ _ => true
  | _ => false
  end.

Definition is_step_into (e : event) : bool :=
  match e with
  | EvFast486StepInto => true
  | _ => false
  end.

(* ================================================================== *)
(** ** Tables and identifiers of emulator.c *)

Definition ExceptionName : list string :=
  [ "Division By Zero";
    "Debug";
    "Unexpected Error";
    "Breakpoint";
    "Integer Overflow";
    "Bound Range Exceeded";
    "Invalid Opcode";
    "FPU Not Available" ]%string.

(** Break into the debugger from a 16-bit app. *)
Definition BOP_DEBUGGER : Z := 0x56.

(** The end of a line of output. *)
Definition newline : string := String (ascii_of_nat 10) EmptyString.

(** The format [EmulatorException] hands to [DisplayMessage]. *)
Definition ExceptionFormat : string :=
  ("Exception: %s occured at %04X:%04X"
   ++ String (ascii_of_nat 10)
        "Opcode: %02X %02X %02X %02X %02X %02X %02X %02X %02X %02X")%string.

(* ================================================================== *)
(** ** The file-scope state *)

Record globals (V P C : Type) : Type := mkGlobals {
  EmulatorContext : C;
  BaseAddress : option memory;     (* [None] is NULL *)
  VdmRunning : bool;
  A20Line : bool;
  Vga : V;
  Pic : P;
  Trace : list event               (* oldest call first *)
}.
Arguments mkGlobals {V P C}.
Arguments EmulatorContext {V P C}.
Arguments BaseAddress {V P C}.
Arguments VdmRunning {V P C}.
Arguments A20Line {V P C}.
Arguments Vga {V P C}.
Arguments Pic {V P C}.
Arguments Trace {V P C}.

Section Emulator.

Context {H : emulator_h}.
Context {V P C : Type} {VGA : VgaDevice V} {PIC : PicDevice P} {CPU : Fast486 C}.

Local Abbreviation globals := (globals V P C).

Definition with_context (c : C) (g : globals) : globals :=
  mkGlobals c (BaseAddress g) (VdmRunning g) (A20Line g) (Vga g) (Pic g) (Trace g).
Definition with_base (b : option memory) (g : globals) : globals :=
  mkGlobals (EmulatorContext g) b (VdmRunning g) (A20Line g) (Vga g) (Pic g) (Trace g).
Definition with_running (r : bool) (g : globals) : globals :=
  mkGlobals (EmulatorContext g) (BaseAddress g) r (A20Line g) (Vga g) (Pic g) (Trace g).
Definition with_a20 (a : bool) (g : globals) : globals :=
  mkGlobals (EmulatorContext g) (BaseAddress g) (VdmRunning g) a (Vga g) (Pic g) (Trace g).
Definition with_vga (v : V) (g : globals) : globals :=
  mkGlobals (EmulatorContext g) (BaseAddress g) (VdmRunning g) (A20Line g) v (Pic g) (Trace g).
Definition with_pic (p : P) (g : globals) : globals :=
  mkGlobals (EmulatorContext g) (BaseAddress g) (VdmRunning g) (A20Line g) (Vga g) p (Trace g).
Definition log (e : event) (g : globals) : globals :=
  mkGlobals (EmulatorContext g) (BaseAddress g) (VdmRunning g) (A20Line g) (Vga g) (Pic g)
            (Trace g ++ [e]).

(** The initialisers of the file-scope variables: [BaseAddress = NULL],
    [VdmRunning = TRUE], [A20Line = FALSE]. *)
Definition globals_at_load (c : C) (v : V) (p : P) : globals :=
  mkGlobals c None true false v p [].

(* ================================================================== *)
(** ** EmulatorReadMemory and EmulatorWriteMemory *)

(** [if (!A20Line) Address &= ~(1 << 20);] *)
Definition a20_masked (g : globals) (Address : Z) : Z :=
  if negb (A20Line g) then Z.land Address A20_MASK else Address.

(** The guard both callbacks put on the VGA block. *)
Definition touches_vga (g : globals) (Address Size : Z) : bool :=
  (ulong (Address + Size) >=? VgaGetVideoBaseAddress (Vga g))
  && (Address <? VgaGetVideoLimitAddress (Vga g)).

Definition VgaAddress_of (g : globals) (Address : Z) : Z :=
  Z.max Address (VgaGetVideoBaseAddress (Vga g)).

Definition ActualSize_of (g : globals) (Address Size : Z) : Z :=
  ulong (Z.min (ulong (Address + Size - 1)) (VgaGetVideoLimitAddress (Vga g))
         - VgaAddress_of g Address + 1).

Definition EmulatorReadMemory (g : globals) (Address : Z) (Buffer : list byte)
    (Size : Z) : outcome (globals * list byte) :=
  (* If the A20 line is disabled, mask bit 20 *)
  let Address := a20_masked g Address in
  (* Make sure the requested address is valid *)
  if ulong (Address + Size) >=? MAX_ADDRESS then Returned (g, Buffer)
  else
    match BaseAddress g with
    | None => Undefined
    | Some m =>
        (* Read from the VGA memory into the address space if needed *)
        let '(g, m) :=
          if touches_vga g Address Size then
            let VgaAddress := VgaAddress_of g Address in
            let ActualSize := ActualSize_of g Address Size in
            let '(bytes, v) := VgaReadMemory (Vga g) VgaAddress ActualSize in
            let m := store m VgaAddress bytes in
            (log (EvVgaReadMemory VgaAddress ActualSize)
               (with_vga v (with_base (Some m) g)), m)
          else (g, m) in
        (* Copy from the address space into the buffer *)
        Returned (g, load m Address Size ++ skipn (Z.to_nat Size) Buffer)
    end.

Definition EmulatorWriteMemory (g : globals) (Address : Z) (Buffer : list byte)
    (Size : Z) : outcome globals :=
  (* If the A20 line is disabled, mask bit 20 *)
  let Address := a20_masked g Address in
  (* Make sure the requested address is valid *)
  if ulong (Address + Size) >=? MAX_ADDRESS then Returned g
  (* Make sure we don't write to the ROM area *)
  else if (ulong (Address + Size) >=? ROM_AREA_START) && (Address <? ROM_AREA_END)
  then Returned g
  else
    match BaseAddress g with
    | None => Undefined
    | Some m =>
        (* Copy from the buffer into the address space *)
        let m := store m Address (firstn (Z.to_nat Size) Buffer) in
        let g := with_base (Some m) g in
        (* Check if we modified the VGA memory *)
        if touches_vga g Address Size then
          let VgaAddress := VgaAddress_of g Address in
          let ActualSize := ActualSize_of g Address Size in
          let SrcBuffer := load m VgaAddress ActualSize in
          Returned (log (EvVgaWriteMemory VgaAddress SrcBuffer ActualSize)
                      (with_vga (VgaWriteMemory (Vga g) VgaAddress SrcBuffer ActualSize) g))
        else Returned g
    end.

(* ================================================================== *)
(** ** The other entry points *)

Definition EmulatorIntAcknowledge (g : globals) : globals * byte :=
  (* Get the interrupt number from the PIC *)
  let '(n, p) := PicGetInterrupt (Pic g) in
  (log EvPicGetInterrupt (with_pic p g), n).

(** [DebugBreak] raises a breakpoint exception; what is given here is the
    machine once the debugger has let the program go on. *)
Definition EmulatorDebugBreak (g : globals) (Stack : Z -> Z) : globals :=
  log EvDebugBreak (log (EvDPrint ("NTVDM: BOP_DEBUGGER" ++ newline)) g).

Definition EmulatorInitialize (hp : heap) (ConsoleInput ConsoleOutput : Z)
    (g : globals) : globals * bool :=
  (* Allocate memory for the 16-bit address space *)
  let g := log (EvHeapAlloc HEAP_ZERO_MEMORY MAX_ADDRESS)
             (with_base (HeapAlloc hp HEAP_ZERO_MEMORY MAX_ADDRESS) g) in
  match BaseAddress g with
  | None =>
      (log (EvWprintf ("FATAL: Failed to allocate VDM memory." ++ newline)) g, false)
  | Some _ =>
      (* Initialize the CPU *)
      let g := log EvFast486Initialize
                 (with_context (Fast486Initialize (EmulatorContext g)) g) in
      (* Enable interrupts *)
      let g := log (EvSetIF 1) (with_context (setIF (EmulatorContext g) 1) g) in
      (* Initialize the PIC, the PIT, the CMOS and the PC Speaker *)
      let g := log EvPicInitialize (with_pic (PicInitialize (Pic g)) g) in
      let g := log EvPitInitialize g in
      let g := log EvCmosInitialize g in
      let g := log EvSpeakerInitialize g in
      (* Initialize the PS2 port *)
      let g := log (EvPS2Initialize ConsoleInput) g in
      (* Initialize the VGA; its result is not looked at *)
      let g := log (EvVgaInitialize ConsoleOutput)
                 (with_vga (snd (VgaInitialize ConsoleOutput (Vga g))) g) in
      (* Register the DebugBreak BOP *)
      let g := log (EvRegisterBop BOP_DEBUGGER) g in
      (* Initialize VDD support *)
      let g := log EvVDDSupInitialize g in
      (g, true)
  end.

Definition EmulatorCleanup (g : globals) : globals :=
  let g := log EvPS2Cleanup g in
  let g := log EvSpeakerCleanup g in
  let g := log EvCmosCleanup g in
  (* Free the memory allocated for the 16-bit address space *)
  match BaseAddress g with
  | Some _ => log EvHeapFree g
  | None => g
  end.

Definition EmulatorException (g : globals) (ExceptionNumber : Z)
    (Stack : Z -> Z) : outcome globals :=
  if ASSERT_enabled && negb (ExceptionNumber <? 8) then AssertFailed
  else
    (* Get the CS:IP *)
    let InstructionPointer := Stack STACK_IP in
    let CodeSegment := Stack STACK_CS in
    let Opcode := TO_LINEAR CodeSegment InstructionPointer in
    match nth_error ExceptionName (Z.to_nat ExceptionNumber), BaseAddress g with
    | Some name, Some m =>
        (* Display a message to the user *)
        let g := log (EvDisplayMessage ExceptionFormat
                        [ArgString name;
                         ArgWord CodeSegment;
                         ArgWord InstructionPointer;
                         ArgByte (m (Opcode + 0));
                         ArgByte (m (Opcode + 1));
                         ArgByte (m (Opcode + 2));
                         ArgByte (m (Opcode + 3));
                         ArgByte (m (Opcode + 4));
                         ArgByte (m (Opcode + 5));
                         ArgByte (m (Opcode + 6));
                         ArgByte (m (Opcode + 7));
                         ArgByte (m (Opcode + 8));
                         ArgByte (m (Opcode + 9))]) g in
        (* Stop the VDM *)
        Returned (with_running false g)
    | _, _ => Undefined
    end.

Definition EmulatorExecute (g : globals) (Segment Offset : Z) : globals :=
  (* Tell Fast486 to move the instruction pointer *)
  log (EvFast486ExecuteAt Segment Offset)
    (with_context (Fast486ExecuteAt (EmulatorContext g) Segment Offset) g).

Definition EmulatorInterrupt (g : globals) (Number : Z) : globals :=
  log (EvFast486Interrupt Number)
    (with_context (Fast486Interrupt (EmulatorContext g) Number) g).

Definition EmulatorInterruptSignal (g : globals) : globals :=
  log EvFast486InterruptSignal
    (with_context (Fast486InterruptSignal (EmulatorContext g)) g).

(** The engine at work: each callback it makes is the function above. *)
Fixpoint run_engine (t : engine_run C) (g : globals) : outcome globals :=
  match t with
  | EngineDone c => Returned (with_context c g)
  | EngineReadMemory Address Buffer Size k =>
      r <- EmulatorReadMemory g Address Buffer Size ;;
      run_engine (k (snd r)) (fst r)
  | EngineWriteMemory Address Buffer Size k =>
      g' <- EmulatorWriteMemory g Address Buffer Size ;;
      run_engine k g'
  | EngineIntAcknowledge k =>
      let r := EmulatorIntAcknowledge g in
      run_engine (k (snd r)) (fst r)
  end.

Definition EmulatorStep (g : globals) : outcome globals :=
  (* Execute the next instruction *)
  run_engine (Fast486StepInto (EmulatorContext g)) (log EvFast486StepInto g).

Definition EmulatorSetA20 (g : globals) (Enabled : bool) : globals :=
  with_a20 Enabled g.

Definition VDDTerminateVDM (g : globals) : globals :=
  (* Stop the VDM *)
  with_running false g.

(* ================================================================== *)
(** ** Sequences of calls *)

Inductive operation : Type :=
| OpReadMemory (Address : Z) (Buffer : list byte) (Size : Z)
| OpWriteMemory (Address : Z) (Buffer : list byte) (Size : Z)
| OpIntAcknowledge
| OpDebugBreak (Stack : Z -> Z)
| OpCleanup
| OpException (ExceptionNumber : Z) (Stack : Z -> Z)
| OpExecute (Segment Offset : Z)
| OpInterrupt (Number : Z)
| OpInterruptSignal
| OpStep
| OpSetA20 (Enabled : bool)
| OpTerminateVDM.

Definition run_op (o : operation) (g : globals) : outcome globals :=
  match o with
  | OpReadMemory a b n => r <- EmulatorReadMemory g a b n ;; Returned (fst r)
  | OpWriteMemory a b n => EmulatorWriteMemory g a b n
  | OpIntAcknowledge => Returned (fst (EmulatorIntAcknowledge g))
  | OpDebugBreak s => Returned (EmulatorDebugBreak g s)
  | OpCleanup => Returned (EmulatorCleanup g)
  | OpException n s => EmulatorException g n s
  | OpExecute s o => Returned (EmulatorExecute g s o)
  | OpInterrupt n => Returned (EmulatorInterrupt g n)
  | OpInterruptSignal => Returned (EmulatorInterruptSignal g)
  | OpStep => EmulatorStep g
  | OpSetA20 e => Returned (EmulatorSetA20 g e)
  | OpTerminateVDM => Returned (VDDTerminateVDM g)
  end.

Fixpoint run (ops : list operation) (g : globals) : outcome globals :=
  match ops with
  | [] => Returned g
  | o :: ops => g' <- run_op o g ;; run ops g'
  end.

Definition enables_a20 (o : operation) : bool :=
  match o with
  | OpSetA20 true => true
  | _ => false
  end.

Definition sets_a20 (o : operation) : bool :=
  match o with
  | OpSetA20 _ => true
  | _ => false
  end.

Definition steps_executed (g : globals) : nat :=
  List.length (filter is_step_into (Trace g)).

Definition vga_calls (g : globals) : list event :=
  filter is_vga_call (Trace g).
(** What a memory callback leaves alone: the two flags, the engine, the
    interrupt controller, the presence of an arena and the number of
    instructions handed to the engine. *)
Definition callback_frame (g g' : globals) : Prop :=
  A20Line g' = A20Line g /\
  VdmRunning g' = VdmRunning g /\
  EmulatorContext g' = EmulatorContext g /\
  Pic g' = Pic g /\
  (BaseAddress g <> None -> BaseAddress g' <> None) /\
  filter is_step_into (Trace g') = filter is_step_into (Trace g).

(** What a whole engine call leaves alone. *)
Definition engine_frame (g g' : globals) : Prop :=
  A20Line g' = A20Line g /\
  VdmRunning g' = VdmRunning g /\
  (BaseAddress g <> None -> BaseAddress g' <> None) /\
  filter is_step_into (Trace g') = filter is_step_into (Trace g).

End Emulator.

(* ================================================================== *)
(** ** Counting calls *)

Definition is_heap_free (e : event) : bool :=
  match e with
  | EvHeapFree => true
  | _ => false
  end.

Definition is_step_op (o : operation) : bool :=
  match o with
  | OpStep => true
  | _ => false
  end.

Definition heap_frees {V P C : Type} (g : globals V P C) : nat :=
  List.length (filter is_heap_free (Trace g)).

(** The state a call that returns leaves behind ([d] if it does not). *)
Definition returned_or {A : Type} (d : A) (o : outcome A) : A :=
  match o with
  | Returned a => a
  | _ => d
  end.

(** What a caller can see of the arena: the byte at [off], if there is an
    arena at all. *)
Definition peek {V P C : Type} (g : globals V P C) (off : Z) : option byte :=
  match BaseAddress g with
  | Some m => Some (m off)
  | None => None
  end.

(* ================================================================== *)
(** ** A concrete machine

    One instance of every interface, small enough to run: the layout of
    the design document's scenario, a video adapter that keeps a byte
    store of its own, an interrupt controller with a queue of vectors and
    an engine whose instruction copies the byte at its instruction
    pointer to offset 0x500. *)

(** Modelled from the spec: emulator.h is not part of the sources at hand.
    The scenario of the design document gives [MAX_ADDRESS = 0x100000] and
    the read-only block [0xF0000, 0x100000); a real-mode address is sixteen
    times the segment plus the offset.  The two stack slots are a choice
    of this instance. *)
Definition scenario_h (debug : bool) : emulator_h := {|
  MAX_ADDRESS := 0x100000;
  ROM_AREA_START := 0xF0000;
  ROM_AREA_END := 0x100000;
  STACK_IP := 2;
  STACK_CS := 3;
  TO_LINEAR := fun seg off => Z.shiftl seg 4 + off;
  ASSERT_enabled := debug
|}.

Record plane_vga : Type := mkPlane {
  plane_base : Z;
  plane_limit : Z;
  plane_bytes : memory
}.

Definition load_length (m : memory) (off n : Z) :
    List.length (load m off n) = Z.to_nat n :=
  eq_trans (length_map _ _) (length_seq _ _).

#[export] Instance plane_device : VgaDevice plane_vga := {|
  VgaGetVideoBaseAddress := plane_base;
  VgaGetVideoLimitAddress := plane_limit;
  VgaReadMemory := fun v a n => (load (plane_bytes v) a n, v);
  VgaWriteMemory := fun v a buf n =>
    mkPlane (plane_base v) (plane_limit v)
            (store (plane_bytes v) a (firstn (Z.to_nat n) buf));
  VgaInitialize := fun _ v => (true, v);
  VgaReadMemory_fills := fun v a n => load_length (plane_bytes v) a n
|}.

#[export] Instance queue_pic : PicDevice (list byte) := {|
  PicGetInterrupt := fun q => (hd x08 q, tl q);
  PicInitialize := fun _ => []
|}.

#[export] Instance copy_engine : Fast486 Z := {|
  Fast486Initialize := fun _ => 0;
  Fast486StepInto := fun ip =>
    EngineReadMemory ip [x00] 1
      (fun op => EngineWriteMemory 0x500 op 1 (EngineDone (ip + 1)));
  Fast486ExecuteAt := fun _ seg off => Z.shiftl seg 4 + off;
  Fast486Interrupt := fun ip _ => ip;
  Fast486InterruptSignal := fun ip => ip;
  setIF := fun ip _ => ip
|}.

(** The scenario's video block [0xA0000, 0xB8000): the adapter reports
    0xA0000 as its base and 0xB7FFF, the last byte of the block, as its
    limit, which is how the callbacks compute the length they forward
    ([min(Address + Size - 1, limit) - VgaAddress + 1]).  Its own store
    holds 0x11 everywhere. *)
Definition scenario_vga : plane_vga := mkPlane 0xA0000 0xB7FFF (fun _ => x11).

Definition roomy_heap : heap := {| heap_room := 0x4000000; heap_content := fun _ => xcc |}.
Definition full_heap : heap := {| heap_room := 0x1000; heap_content := fun _ => xcc |}.

(** The scenario machine right after a successful [EmulatorInitialize]. *)
Definition scenario_machine (debug : bool) : globals plane_vga (list byte) Z :=
  fst (EmulatorInitialize (H := scenario_h debug) roomy_heap 3 7
         (globals_at_load 0 scenario_vga [x08])).

(** A stack frame with IP = 0x0100 and CS = 0x0050. *)
Definition demo_frame : Z -> Z :=
  fun i => if i =? 2 then 0x0100 else if i =? 3 then 0x0050 else 0.

(** The scenario machine after the bytes 0xAA 0xBB 0xCC 0xDD have been
    written at 0x600, and the arena it then has. *)
Definition patterned_machine (debug : bool) : globals plane_vga (list byte) Z :=
  returned_or (scenario_machine debug)
    (EmulatorWriteMemory (H := scenario_h debug) (scenario_machine debug)
       0x600 [xaa; xbb; xcc; xdd] 4).

Definition patterned_arena : memory :=
  store (zero_filled 0x100000 (heap_content roomy_heap)) 0x600 [xaa; xbb; xcc; xdd].

(** The patterned machine, sent to 0060:0000 and then stopped by an
    invalid-opcode report. *)
Definition halted_machine : globals plane_vga (list byte) Z :=
  returned_or (patterned_machine false)
    (EmulatorException (H := scenario_h false)
       (EmulatorExecute (patterned_machine false) 0x60 0) 6 demo_frame).

(** Three calls after start-up, none of which enables the gate. *)
Definition quiet_calls : list operation :=
  [OpWriteMemory 0x100600 [x42] 1; OpSetA20 false; OpStep].

Definition machine_after_quiet_calls : globals plane_vga (list byte) Z :=
  returned_or (scenario_machine false)
    (run (H := scenario_h false) quiet_calls (scenario_machine false)).

(** The patterned machine with the A20 gate enabled. *)
Definition open_gate_machine : globals plane_vga (list byte) Z :=
  EmulatorSetA20 (patterned_machine false) true.

(** A mix of calls: a write into the video block, a read, an interrupt
    acknowledge, two steps, a fault report and one more step. *)
Definition mixed_calls : list operation :=
  [OpWriteMemory 0xA0010 [x01; x02] 2; OpReadMemory 0x600 [xff] 1;
   OpIntAcknowledge; OpStep; OpStep; OpException 3 demo_frame; OpStep].

(* ================================================================== *)
(** * Properties *)

(** ** Arithmetic and memory lemmas *)

Lemma ulong_small (x : Z) : 0 <= x < 2 ^ 32 -> ulong x = x.
Proof. intros Hx. unfold ulong. now apply Z.mod_small. Qed.

Lemma A20_MASK_bits (n : Z) :
  0 <= n -> Z.testbit A20_MASK n = (n <? 32) && negb (n =? 20).
Proof.
  intros Hn.
  change A20_MASK with (Z.lxor (Z.ones 32) (2 ^ 20)).
  rewrite Z.lxor_spec, Z.pow2_bits_eqb by lia.
  destruct (Z.ltb_spec n 32) as [Hlt | Hge].
  - rewrite Z.ones_spec_low by lia.
    rewrite (Z.eqb_sym 20 n). now destruct (n =? 20).
  - rewrite Z.ones_spec_high by lia.
    destruct (Z.eqb_spec 20 n); [lia | reflexivity].
Qed.

(** Under a clear gate an address and the same address with bit 20 forced
    on are masked to the same value. *)
Lemma mask_absorbs_bit20 (a : Z) :
  Z.land (Z.lor a (Z.shiftl 1 20)) A20_MASK = Z.land a A20_MASK.
Proof.
  apply Z.bits_inj'. intros n Hn.
  rewrite !Z.land_spec, Z.lor_spec, A20_MASK_bits by lia.
  change (Z.shiftl 1 20) with (2 ^ 20).
  rewrite Z.pow2_bits_eqb by lia.
  rewrite (Z.eqb_sym 20 n).
  destruct (n =? 20); simpl.
  - now rewrite !andb_false_r.
  - now rewrite orb_false_r.
Qed.

Lemma mask_idempotent (a : Z) :
  Z.land (Z.land a A20_MASK) A20_MASK = Z.land a A20_MASK.
Proof. now rewrite <- Z.land_assoc, Z.land_diag. Qed.

(** On a 32-bit value the mask clears bit 20 and nothing else. *)
Lemma mask_is_clearbit (a : Z) :
  is_ulong a -> Z.land a A20_MASK = Z.clearbit a 20.
Proof.
  intros [Hlo Hhi].
  apply Z.bits_inj'. intros n Hn.
  rewrite Z.land_spec, A20_MASK_bits, Z.clearbit_eqb by lia.
  rewrite (Z.eqb_sym 20 n).
  destruct (Z.ltb_spec n 32) as [Hlt | Hge].
  - now rewrite andb_true_l.
  - rewrite andb_false_l, andb_false_r.
    assert (Hb : Z.testbit a n = false).
    { destruct (Z.eq_dec a 0) as [-> | Hnz]; [apply Z.bits_0 |].
      apply Z.bits_above_log2; [lia |].
      apply Z.log2_lt_pow2; [lia |].
      apply Z.lt_le_trans with (2 ^ 32); [lia |].
      apply Z.pow_le_mono_r; lia. }
    now rewrite Hb.
Qed.

Lemma nth_load (m : memory) (off n : Z) (i : nat) :
  (i < Z.to_nat n)%nat -> nth i (load m off n) x00 = m (off + Z.of_nat i).
Proof.
  intros Hi. unfold load.
  set (f := fun j : nat => m (off + Z.of_nat j)).
  rewrite (nth_indep _ x00 (f 0%nat)) by now rewrite length_map, length_seq.
  rewrite map_nth, seq_nth by assumption. reflexivity.
Qed.

Lemma load_ext (m m' : memory) (off n : Z) :
  (forall x, off <= x < off + n -> m x = m' x) -> load m off n = load m' off n.
Proof.
  intros Hext. unfold load. apply map_ext_in.
  intros i Hi. apply in_seq in Hi. apply Hext. lia.
Qed.

Lemma store_inside (m : memory) (bs : list byte) :
  forall (off x : Z),
    off <= x < off + Z.of_nat (List.length bs) ->
    store m off bs x = nth (Z.to_nat (x - off)) bs x00.
Proof.
  induction bs as [| b bs IH]; intros off x Hx; simpl in Hx; [lia |].
  cbn [store].
  destruct (Z.eqb_spec x off) as [-> | Hne].
  - now rewrite Z.sub_diag.
  - rewrite IH by lia.
    replace (Z.to_nat (x - off)) with (S (Z.to_nat (x - (off + 1)))) by lia.
    reflexivity.
Qed.

Lemma store_outside (m : memory) (bs : list byte) :
  forall (off x : Z),
    x < off \/ off + Z.of_nat (List.length bs) <= x -> store m off bs x = m x.
Proof.
  induction bs as [| b bs IH]; intros off x Hx; simpl in Hx; [reflexivity |].
  cbn [store].
  destruct (Z.eqb_spec x off) as [-> | Hne]; [lia |].
  apply IH. lia.
Qed.

(** Reading back exactly what was stored. *)
Lemma load_store_same (m : memory) (off n : Z) (bs : list byte) :
  List.length bs = Z.to_nat n -> load (store m off bs) off n = bs.
Proof.
  intros Hlen.
  apply nth_ext with (d := x00) (d' := x00).
  - now rewrite load_length.
  - intros i Hi. rewrite load_length in Hi.
    rewrite nth_load by assumption.
    rewrite store_inside by lia.
    f_equal. lia.
Qed.

Lemma firstn_full {A : Type} (l : list A) (n : Z) :
  List.length l = Z.to_nat n -> firstn (Z.to_nat n) l = l.
Proof. intros <-. apply firstn_all. Qed.

Lemma skipn_full {A : Type} (l : list A) (n : Z) :
  List.length l = Z.to_nat n -> skipn (Z.to_nat n) l = [].
Proof. intros <-. apply skipn_all. Qed.

(* ================================================================== *)
(** ** The memory callbacks *)

Section MemoryCallbacks.

Context {H : emulator_h}.
Context {V P C : Type} {VGA : VgaDevice V} {PIC : PicDevice P} {CPU : Fast486 C}.

Local Abbreviation globals := (globals V P C).

(** Case analysis along the tests of the two callbacks. *)
Ltac split_callback :=
  repeat (cbv beta iota;
          match goal with
          | |- context [let '(_, _) := (if ?b then _ else _) in _] =>
              destruct b eqn:?
          | |- context [let '(_, _) := VgaReadMemory ?v ?a ?n in _] =>
              destruct (VgaReadMemory v a n) eqn:?
          | |- context [if ?b then _ else _] => destruct b eqn:?
          | |- context [match BaseAddress ?g with _ => _ end] =>
              destruct (BaseAddress g) eqn:?
          end).

Lemma callback_frame_refl (g : globals) : callback_frame g g.
Proof. unfold callback_frame; intuition. Qed.

Lemma callback_frame_trans (g1 g2 g3 : globals) :
  callback_frame g1 g2 -> callback_frame g2 g3 -> callback_frame g1 g3.
Proof. unfold callback_frame; intuition congruence. Qed.

Lemma EmulatorReadMemory_frame (g g' : globals) Address Buffer Size Buffer' :
  EmulatorReadMemory g Address Buffer Size = Returned (g', Buffer') ->
  callback_frame g g'.
Proof.
  unfold EmulatorReadMemory. split_callback; intros Heq;
    inversion Heq; subst; unfold callback_frame; simpl;
    rewrite ?filter_app, ?app_nil_r; simpl; rewrite ?app_nil_r;
    intuition congruence.
Qed.

Lemma EmulatorWriteMemory_frame (g g' : globals) Address Buffer Size :
  EmulatorWriteMemory g Address Buffer Size = Returned g' ->
  callback_frame g g'.
Proof.
  unfold EmulatorWriteMemory. split_callback; intros Heq;
    inversion Heq; subst; unfold callback_frame; simpl;
    rewrite ?filter_app, ?app_nil_r; simpl; rewrite ?app_nil_r;
    intuition congruence.
Qed.

(** With an arena in place both callbacks return. *)
Lemma EmulatorReadMemory_returns (g : globals) Address Buffer Size :
  BaseAddress g <> None ->
  exists r, EmulatorReadMemory g Address Buffer Size = Returned r.
Proof.
  intros Hb. unfold EmulatorReadMemory. split_callback; try congruence; eauto.
Qed.

Lemma EmulatorWriteMemory_returns (g : globals) Address Buffer Size :
  BaseAddress g <> None ->
  exists g', EmulatorWriteMemory g Address Buffer Size = Returned g'.
Proof.
  intros Hb. unfold EmulatorWriteMemory. split_callback; try congruence; eauto.
Qed.

(** The two callbacks look at the address only through [a20_masked]. *)
Lemma EmulatorReadMemory_masked (g : globals) (a b : Z) Buffer Size :
  a20_masked g a = a20_masked g b ->
  EmulatorReadMemory g a Buffer Size = EmulatorReadMemory g b Buffer Size.
Proof. intros Hab. unfold EmulatorReadMemory. now rewrite Hab. Qed.

Lemma EmulatorWriteMemory_masked (g : globals) (a b : Z) Buffer Size :
  a20_masked g a = a20_masked g b ->
  EmulatorWriteMemory g a Buffer Size = EmulatorWriteMemory g b Buffer Size.
Proof. intros Hab. unfold EmulatorWriteMemory. now rewrite Hab. Qed.

(** C1 (as amended).  The test [Address + Size >= MAX_ADDRESS] is made on
    the address after the A20 mask.  Whenever that masked address plus the
    length, a sum that fits 32 bits, is at or beyond [MAX_ADDRESS], the
    read returns the machine and the caller's buffer as they were and the
    write returns the machine as it was: no arena byte changes and no
    device entry point is called. *)
Theorem C1_masked_out_of_range_is_dropped (g : globals) Address Buffer Size :
  0 <= a20_masked g Address + Size < 2 ^ 32 ->
  MAX_ADDRESS <= a20_masked g Address + Size ->
  EmulatorReadMemory g Address Buffer Size = Returned (g, Buffer) /\
  EmulatorWriteMemory g Address Buffer Size = Returned g.
Proof.
  intros Hfit Hout.
  unfold EmulatorReadMemory, EmulatorWriteMemory.
  rewrite (ulong_small _ Hfit).
  destruct (Z.geb_spec (a20_masked g Address + Size) MAX_ADDRESS); [| lia].
  split; reflexivity.
Qed.

(** C6.  With the A20 gate clear, an address and the same address with
    bit 20 set give the same read (same bytes returned, same machine
    afterwards) and the same write; both are the access at the address
    with bit 20 cleared, the mask being the first thing either callback
    does. *)
Theorem C6_a20_clear_aliases_bit20 (g : globals) Address Buffer Size :
  A20Line g = false ->
  EmulatorReadMemory g (Z.lor Address (Z.shiftl 1 20)) Buffer Size
    = EmulatorReadMemory g Address Buffer Size /\
  EmulatorWriteMemory g (Z.lor Address (Z.shiftl 1 20)) Buffer Size
    = EmulatorWriteMemory g Address Buffer Size /\
  EmulatorReadMemory g Address Buffer Size
    = EmulatorReadMemory g (Z.land Address A20_MASK) Buffer Size /\
  EmulatorWriteMemory g Address Buffer Size
    = EmulatorWriteMemory g (Z.land Address A20_MASK) Buffer Size.
Proof.
  intros Hgate.
  assert (Hor : a20_masked g (Z.lor Address (Z.shiftl 1 20)) = a20_masked g Address).
  { unfold a20_masked. rewrite Hgate. simpl. apply mask_absorbs_bit20. }
  assert (Hand : a20_masked g Address = a20_masked g (Z.land Address A20_MASK)).
  { unfold a20_masked. rewrite Hgate. simpl. symmetry. apply mask_idempotent. }
  repeat split;
    solve [ now apply EmulatorReadMemory_masked
          | now apply EmulatorWriteMemory_masked ].
Qed.

(** *** The read-only block *)

(** A write that meets the read-only block is dropped whole. *)
Lemma write_meeting_rom_dropped (g : globals) Address Buffer Size :
  MAX_ADDRESS <= 2 ^ 32 ->
  0 <= a20_masked g Address -> 0 <= Size ->
  a20_masked g Address + Size < MAX_ADDRESS ->
  Z.max (a20_masked g Address) ROM_AREA_START
    < Z.min (a20_masked g Address + Size) ROM_AREA_END ->
  EmulatorWriteMemory g Address Buffer Size = Returned g.
Proof.
  intros Hmax Ha Hs Hin Hmeet.
  unfold EmulatorWriteMemory.
  rewrite ulong_small by lia.
  destruct (Z.geb_spec (a20_masked g Address + Size) MAX_ADDRESS); [reflexivity |].
  destruct (Z.geb_spec (a20_masked g Address + Size) ROM_AREA_START); [| lia].
  destruct (Z.ltb_spec (a20_masked g Address) ROM_AREA_END); [| lia].
  reflexivity.
Qed.

(** The test is [Address + Size >= ROM_AREA_START], so a write that ends
    right below the block is dropped as well. *)
Lemma write_ending_at_rom_start_dropped (g : globals) Address Buffer Size :
  MAX_ADDRESS <= 2 ^ 32 ->
  0 <= a20_masked g Address -> 0 <= Size ->
  a20_masked g Address + Size < MAX_ADDRESS ->
  a20_masked g Address + Size = ROM_AREA_START ->
  a20_masked g Address < ROM_AREA_END ->
  EmulatorWriteMemory g Address Buffer Size = Returned g.
Proof.
  intros Hmax Ha Hs Hin Hend Hlt.
  unfold EmulatorWriteMemory.
  rewrite ulong_small by lia.
  destruct (Z.geb_spec (a20_masked g Address + Size) MAX_ADDRESS); [reflexivity |].
  destruct (Z.geb_spec (a20_masked g Address + Size) ROM_AREA_START); [| lia].
  destruct (Z.ltb_spec (a20_masked g Address) ROM_AREA_END); [| lia].
  reflexivity.
Qed.

(** A write that stays clear of both tests puts its bytes in the arena. *)
Lemma write_clear_of_rom_stored (g : globals) (m : memory) Address Buffer Size :
  BaseAddress g = Some m ->
  MAX_ADDRESS <= 2 ^ 32 ->
  0 <= a20_masked g Address -> 0 <= Size ->
  a20_masked g Address + Size < MAX_ADDRESS ->
  a20_masked g Address + Size < ROM_AREA_START \/ ROM_AREA_END <= a20_masked g Address ->
  List.length Buffer = Z.to_nat Size ->
  exists g', EmulatorWriteMemory g Address Buffer Size = Returned g' /\
             BaseAddress g' = Some (store m (a20_masked g Address) Buffer) /\
             load (store m (a20_masked g Address) Buffer) (a20_masked g Address) Size
               = Buffer.
Proof.
  intros Hb Hmax Ha Hs Hin Hclear Hlen.
  unfold EmulatorWriteMemory.
  rewrite ulong_small by lia.
  destruct (Z.geb_spec (a20_masked g Address + Size) MAX_ADDRESS); [lia |].
  assert (Hrom : (a20_masked g Address + Size >=? ROM_AREA_START)
                 && (a20_masked g Address <? ROM_AREA_END) = false).
  { destruct (Z.geb_spec (a20_masked g Address + Size) ROM_AREA_START);
      destruct (Z.ltb_spec (a20_masked g Address) ROM_AREA_END);
      simpl; try reflexivity; lia. }
  rewrite Hrom, Hb, (firstn_full _ _ Hlen).
  cbv beta iota zeta.
  destruct (touches_vga _ _ _); eexists; (split; [reflexivity |]);
    (split; [reflexivity | now apply load_store_same]).
Qed.

(** *** The video block *)

(** Where a request that meets the video block [base, limit) is clipped. *)
Lemma clip_to_vga (g : globals) (a Size : Z) :
  MAX_ADDRESS <= 2 ^ 32 ->
  0 <= a -> a + Size < MAX_ADDRESS ->
  Z.max a (VgaGetVideoBaseAddress (Vga g))
    < Z.min (a + Size) (VgaGetVideoLimitAddress (Vga g)) ->
  touches_vga g a Size = true /\
  ActualSize_of g a Size
    = Z.min (a + Size - 1) (VgaGetVideoLimitAddress (Vga g))
      - Z.max a (VgaGetVideoBaseAddress (Vga g)) + 1.
Proof.
  intros Hmax Ha Hin Hmeet.
  unfold touches_vga, ActualSize_of, VgaAddress_of.
  rewrite (ulong_small (a + Size)) by lia.
  rewrite (ulong_small (a + Size - 1)) by lia.
  split.
  - destruct (Z.geb_spec (a + Size) (VgaGetVideoBaseAddress (Vga g))); [| lia].
    destruct (Z.ltb_spec a (VgaGetVideoLimitAddress (Vga g))); [| lia].
    reflexivity.
  - apply ulong_small. lia.
Qed.

Lemma read_through_vga (g : globals) (m : memory) Address Buffer Size bytes v :
  BaseAddress g = Some m ->
  ulong (a20_masked g Address + Size) < MAX_ADDRESS ->
  touches_vga g (a20_masked g Address) Size = true ->
  VgaReadMemory (Vga g) (VgaAddress_of g (a20_masked g Address))
                (ActualSize_of g (a20_masked g Address) Size) = (bytes, v) ->
  EmulatorReadMemory g Address Buffer Size
  = Returned
      (log (EvVgaReadMemory (VgaAddress_of g (a20_masked g Address))
                            (ActualSize_of g (a20_masked g Address) Size))
         (with_vga v
            (with_base (Some (store m (VgaAddress_of g (a20_masked g Address)) bytes)) g)),
       load (store m (VgaAddress_of g (a20_masked g Address)) bytes)
            (a20_masked g Address) Size
       ++ skipn (Z.to_nat Size) Buffer).
Proof.
  intros Hb Hin Htouch Hdev.
  unfold EmulatorReadMemory.
  destruct (Z.geb_spec (ulong (a20_masked g Address + Size)) MAX_ADDRESS); [lia |].
  rewrite Hb, Htouch, Hdev. reflexivity.
Qed.

Lemma write_through_vga (g : globals) (m : memory) Address Buffer Size :
  BaseAddress g = Some m ->
  ulong (a20_masked g Address + Size) < MAX_ADDRESS ->
  (ulong (a20_masked g Address + Size) >=? ROM_AREA_START)
    && (a20_masked g Address <? ROM_AREA_END) = false ->
  touches_vga g (a20_masked g Address) Size = true ->
  EmulatorWriteMemory g Address Buffer Size
  = let a := a20_masked g Address in
    let m' := store m a (firstn (Z.to_nat Size) Buffer) in
    let SrcBuffer := load m' (VgaAddress_of g a) (ActualSize_of g a Size) in
    Returned
      (log (EvVgaWriteMemory (VgaAddress_of g a) SrcBuffer (ActualSize_of g a Size))
         (with_vga (VgaWriteMemory (Vga g) (VgaAddress_of g a) SrcBuffer
                                   (ActualSize_of g a Size))
            (with_base (Some m') g))).
Proof.
  intros Hb Hin Hrom Htouch.
  unfold EmulatorWriteMemory.
  destruct (Z.geb_spec (ulong (a20_masked g Address + Size)) MAX_ADDRESS); [lia |].
  rewrite Hrom, Hb.
  cbv beta iota zeta.
  change (touches_vga (with_base ?b g) ?a ?n) with (touches_vga g a n).
  rewrite Htouch. reflexivity.
Qed.

(** Accesses that meet the video block and start before its limit, the
    block being the offsets from the adapter's base up to and including
    its limit.

    Read: the adapter's read entry point is called first, for exactly the
    part of the request that lies in the block, and what it yields is put
    in the arena there; the bytes handed to the caller are then copied out
    of that arena, so on the overlap they are the adapter's bytes.

    Write: the whole payload is put in the arena first; the adapter's
    write entry point is then called, for exactly the part of the request
    that lies in the block, with the bytes found in that arena.

    Round trip: a write that lies inside the block followed by a read of
    the same range hands back what the adapter's read entry point yields
    in the state its write entry point left. *)
Lemma device_mirroring_before_limit :
  (forall (g : globals) (m : memory) Address Buffer Size a lo n bytes v,
      BaseAddress g = Some m ->
      MAX_ADDRESS <= 2 ^ 32 ->
      a = a20_masked g Address ->
      0 <= a -> a + Size < MAX_ADDRESS ->
      lo = Z.max a (VgaGetVideoBaseAddress (Vga g)) ->
      lo < Z.min (a + Size) (VgaGetVideoLimitAddress (Vga g)) ->
      n = ActualSize_of g a Size ->
      VgaReadMemory (Vga g) lo n = (bytes, v) ->
      exists g' Buffer',
        EmulatorReadMemory g Address Buffer Size = Returned (g', Buffer') /\
        Trace g' = Trace g ++ [EvVgaReadMemory lo n] /\
        lo + n = Z.min (a + Size) (VgaGetVideoLimitAddress (Vga g) + 1) /\
        Vga g' = v /\
        BaseAddress g' = Some (store m lo bytes) /\
        Buffer' = load (store m lo bytes) a Size ++ skipn (Z.to_nat Size) Buffer /\
        forall x, lo <= x < lo + n ->
                  nth (Z.to_nat (x - a)) Buffer' x00
                  = nth (Z.to_nat (x - lo)) bytes x00)
  /\
  (forall (g : globals) (m : memory) Address Buffer Size a lo n m',
      BaseAddress g = Some m ->
      MAX_ADDRESS <= 2 ^ 32 ->
      a = a20_masked g Address ->
      0 <= a -> a + Size < MAX_ADDRESS ->
      a + Size < ROM_AREA_START \/ ROM_AREA_END <= a ->
      List.length Buffer = Z.to_nat Size ->
      lo = Z.max a (VgaGetVideoBaseAddress (Vga g)) ->
      lo < Z.min (a + Size) (VgaGetVideoLimitAddress (Vga g)) ->
      n = ActualSize_of g a Size ->
      m' = store m a Buffer ->
      exists g',
        EmulatorWriteMemory g Address Buffer Size = Returned g' /\
        BaseAddress g' = Some m' /\
        load m' a Size = Buffer /\
        Trace g' = Trace g ++ [EvVgaWriteMemory lo (load m' lo n) n] /\
        lo + n = Z.min (a + Size) (VgaGetVideoLimitAddress (Vga g) + 1) /\
        Vga g' = VgaWriteMemory (Vga g) lo (load m' lo n) n)
  /\
  (forall (g : globals) (m : memory) Address Buffer Buffer2 Size a v1,
      BaseAddress g = Some m ->
      MAX_ADDRESS <= 2 ^ 32 ->
      a = a20_masked g Address ->
      0 <= a -> 0 < Size -> a + Size < MAX_ADDRESS ->
      a + Size < ROM_AREA_START \/ ROM_AREA_END <= a ->
      List.length Buffer = Z.to_nat Size ->
      VgaGetVideoBaseAddress (Vga g) <= a ->
      a + Size <= VgaGetVideoLimitAddress (Vga g) ->
      v1 = VgaWriteMemory (Vga g) a Buffer Size ->
      VgaGetVideoBaseAddress v1 <= a ->
      a + Size <= VgaGetVideoLimitAddress v1 ->
      exists g1 g2,
        EmulatorWriteMemory g Address Buffer Size = Returned g1 /\
        Vga g1 = v1 /\
        EmulatorReadMemory g1 Address Buffer2 Size
          = Returned (g2, fst (VgaReadMemory v1 a Size)
                          ++ skipn (Z.to_nat Size) Buffer2) /\
        Trace g2 = Trace g ++ [EvVgaWriteMemory a Buffer Size;
                               EvVgaReadMemory a Size]).
Proof.
  split; [| split].
  - (* read *)
    intros g m Address Buffer Size a lo n bytes v Hb Hmax -> Ha Hin -> Hmeet -> Hdev.
    destruct (clip_to_vga g _ Size Hmax Ha Hin Hmeet) as [Htouch Hn].
    assert (Hlen : List.length bytes
                   = Z.to_nat (ActualSize_of g (a20_masked g Address) Size)).
    { pose proof (VgaReadMemory_fills (Vga g)
                    (Z.max (a20_masked g Address) (VgaGetVideoBaseAddress (Vga g)))
                    (ActualSize_of g (a20_masked g Address) Size)) as Hf.
      now rewrite Hdev in Hf. }
    eexists. eexists.
    split.
    { apply read_through_vga; try eassumption.
      rewrite ulong_small by lia. lia. }
    split; [reflexivity |].
    split; [lia |].
    repeat split.
    intros x Hx.
    rewrite app_nth1 by (rewrite load_length; lia).
    rewrite nth_load by lia.
    unfold VgaAddress_of.
    rewrite store_inside by (rewrite Hlen, Hn; lia).
    f_equal. lia.
  - (* write *)
    intros g m Address Buffer Size a lo n m' Hb Hmax -> Ha Hin Hclear Hlen
           -> Hmeet -> ->.
    destruct (clip_to_vga g _ Size Hmax Ha Hin Hmeet) as [Htouch Hn].
    eexists. split.
    { apply write_through_vga; try eassumption.
      - rewrite ulong_small by lia. lia.
      - rewrite ulong_small by lia.
        destruct (Z.geb_spec (a20_masked g Address + Size) ROM_AREA_START);
          destruct (Z.ltb_spec (a20_masked g Address) ROM_AREA_END);
          simpl; try reflexivity; lia. }
    cbv zeta. rewrite (firstn_full _ _ Hlen).
    split; [reflexivity |].
    split; [now apply load_store_same |].
    split; [reflexivity |].
    split; [lia | reflexivity].
  - (* round trip *)
    intros g m Address Buffer Buffer2 Size a v1 Hb Hmax -> Ha Hpos Hin Hclear Hlen
           Hbase Hlimit -> Hbase1 Hlimit1.
    assert (Hmeet : Z.max (a20_masked g Address) (VgaGetVideoBaseAddress (Vga g))
                    < Z.min (a20_masked g Address + Size)
                            (VgaGetVideoLimitAddress (Vga g))) by lia.
    destruct (clip_to_vga g _ Size Hmax Ha Hin Hmeet) as [Htouch Hn].
    assert (Hlo : VgaAddress_of g (a20_masked g Address) = a20_masked g Address)
      by (unfold VgaAddress_of; lia).
    assert (Hn' : ActualSize_of g (a20_masked g Address) Size = Size) by lia.
    set (v1 := VgaWriteMemory (Vga g) (a20_masked g Address) Buffer Size) in *.
    pose (g1 := log (EvVgaWriteMemory (a20_masked g Address) Buffer Size)
                  (with_vga v1
                     (with_base (Some (store m (a20_masked g Address) Buffer)) g))).
    assert (Hmask : a20_masked g1 Address = a20_masked g Address) by reflexivity.
    assert (Hvga1 : Vga g1 = v1) by reflexivity.
    assert (Hmeet1 : Z.max (a20_masked g1 Address) (VgaGetVideoBaseAddress (Vga g1))
                     < Z.min (a20_masked g1 Address + Size)
                             (VgaGetVideoLimitAddress (Vga g1)))
      by (rewrite Hmask, Hvga1; lia).
    assert (Ha1 : 0 <= a20_masked g1 Address) by (rewrite Hmask; lia).
    assert (Hin1 : a20_masked g1 Address + Size < MAX_ADDRESS)
      by (rewrite Hmask; lia).
    destruct (clip_to_vga g1 _ Size Hmax Ha1 Hin1 Hmeet1) as [Htouch1 Hn1].
    assert (Hlo1 : VgaAddress_of g1 (a20_masked g1 Address) = a20_masked g Address)
      by (unfold VgaAddress_of; rewrite Hmask, Hvga1; lia).
    assert (Hsz1 : ActualSize_of g1 (a20_masked g1 Address) Size = Size)
      by (rewrite Hn1, Hmask, Hvga1; lia).
    destruct (VgaReadMemory v1 (a20_masked g Address) Size) as [bytes v2] eqn:Hdev.
    assert (Hlen2 : List.length bytes = Z.to_nat Size).
    { pose proof (VgaReadMemory_fills v1 (a20_masked g Address) Size) as Hf.
      now rewrite Hdev in Hf. }
    exists g1.
    exists (log (EvVgaReadMemory (a20_masked g Address) Size)
              (with_vga v2
                 (with_base
                    (Some (store (store m (a20_masked g Address) Buffer)
                                 (a20_masked g Address) bytes)) g1))).
    split.
    { rewrite write_through_vga with (m := m); try eassumption.
      - cbv zeta. rewrite (firstn_full _ _ Hlen), Hlo, Hn'.
        rewrite (load_store_same _ _ _ _ Hlen). reflexivity.
      - rewrite ulong_small by lia. lia.
      - rewrite ulong_small by lia.
        destruct (Z.geb_spec (a20_masked g Address + Size) ROM_AREA_START);
          destruct (Z.ltb_spec (a20_masked g Address) ROM_AREA_END);
          simpl; try reflexivity; lia. }
    split; [reflexivity |].
    split.
    { rewrite read_through_vga
        with (m := store m (a20_masked g Address) Buffer) (bytes := bytes) (v := v2).
      - rewrite Hlo1, Hsz1, Hmask.
        rewrite (load_store_same _ _ _ _ Hlen2). reflexivity.
      - reflexivity.
      - rewrite Hmask, ulong_small by lia. lia.
      - exact Htouch1.
      - rewrite Hlo1, Hsz1, Hvga1. exact Hdev. }
    subst g1. simpl. rewrite <- app_assoc. reflexivity.
Qed.

End MemoryCallbacks.

(* ================================================================== *)
(** ** Execution control, faults and start-up *)

Section Control.

Context {H : emulator_h}.
Context {V P C : Type} {VGA : VgaDevice V} {PIC : PicDevice P} {CPU : Fast486 C}.

Local Abbreviation globals := (globals V P C).

Lemma callback_frame_engine (g g' : globals) :
  callback_frame g g' -> engine_frame g g'.
Proof. unfold callback_frame, engine_frame. intuition. Qed.

Lemma engine_frame_trans (g1 g2 g3 : globals) :
  engine_frame g1 g2 -> engine_frame g2 g3 -> engine_frame g1 g3.
Proof. unfold engine_frame; intuition congruence. Qed.

Lemma EmulatorIntAcknowledge_frame (g : globals) :
  engine_frame g (fst (EmulatorIntAcknowledge g)).
Proof.
  unfold EmulatorIntAcknowledge, engine_frame.
  destruct (PicGetInterrupt (Pic g)) as [n p]. simpl.
  rewrite filter_app. simpl. rewrite app_nil_r. intuition.
Qed.

(** Whatever the engine does with its callbacks, the two flags stay as
    they were, an arena stays an arena and no further instruction is
    counted. *)
Lemma run_engine_frame (t : engine_run C) :
  forall g g' : globals, run_engine t g = Returned g' -> engine_frame g g'.
Proof.
  induction t as [c | Address Buffer Size k IH | Address Buffer Size k IH | k IH];
    intros g g' Hrun; simpl in Hrun.
  - inversion Hrun; subst. unfold engine_frame. simpl. intuition.
  - destruct (EmulatorReadMemory g Address Buffer Size) as [[g1 b1] | |] eqn:Hr;
      simpl in Hrun; try discriminate.
    apply engine_frame_trans with g1.
    + apply callback_frame_engine. eapply EmulatorReadMemory_frame; eassumption.
    + eapply IH; eassumption.
  - destruct (EmulatorWriteMemory g Address Buffer Size) as [g1 | |] eqn:Hw;
      simpl in Hrun; try discriminate.
    apply engine_frame_trans with g1.
    + apply callback_frame_engine. eapply EmulatorWriteMemory_frame; eassumption.
    + now apply IH.
  - apply engine_frame_trans with (fst (EmulatorIntAcknowledge g)).
    + apply EmulatorIntAcknowledge_frame.
    + eapply IH; eassumption.
Qed.

(** With an arena in place the engine call comes back. *)
Lemma run_engine_returns (t : engine_run C) :
  forall g : globals, BaseAddress g <> None ->
                      exists g', run_engine t g = Returned g'.
Proof.
  induction t as [c | Address Buffer Size k IH | Address Buffer Size k IH | k IH];
    intros g Hb; simpl.
  - eauto.
  - destruct (EmulatorReadMemory_returns g Address Buffer Size Hb) as [[g1 b1] Hr].
    rewrite Hr. simpl. apply IH.
    apply EmulatorReadMemory_frame in Hr. unfold callback_frame in Hr. intuition.
  - destruct (EmulatorWriteMemory_returns g Address Buffer Size Hb) as [g1 Hw].
    rewrite Hw. simpl. apply IH.
    apply EmulatorWriteMemory_frame in Hw. unfold callback_frame in Hw. intuition.
  - apply IH.
    pose proof (EmulatorIntAcknowledge_frame g) as Hf.
    unfold engine_frame in Hf. intuition.
Qed.

Lemma steps_executed_log_step (g : globals) :
  steps_executed (log EvFast486StepInto g) = S (steps_executed g).
Proof.
  unfold steps_executed, log. simpl.
  rewrite filter_app, length_app. simpl. lia.
Qed.

(** [EmulatorStep] never looks at [VdmRunning]: each call hands exactly one
    instruction to the engine and leaves both flags as they were. *)
Lemma EmulatorStep_spec (g g' : globals) :
  EmulatorStep g = Returned g' ->
  steps_executed g' = S (steps_executed g) /\
  VdmRunning g' = VdmRunning g /\
  A20Line g' = A20Line g /\
  (BaseAddress g <> None -> BaseAddress g' <> None).
Proof.
  unfold EmulatorStep. intros Hrun.
  apply run_engine_frame in Hrun.
  destruct Hrun as (Ha & Hr & Hb & Hs).
  rewrite <- steps_executed_log_step.
  unfold steps_executed. rewrite Hs. intuition.
Qed.

Lemma EmulatorStep_returns (g : globals) :
  BaseAddress g <> None -> exists g', EmulatorStep g = Returned g'.
Proof. intros Hb. unfold EmulatorStep. now apply run_engine_returns. Qed.

Lemma EmulatorException_flags (g g' : globals) n Stack :
  EmulatorException g n Stack = Returned g' ->
  VdmRunning g' = false /\ A20Line g' = A20Line g /\ BaseAddress g' = BaseAddress g.
Proof.
  unfold EmulatorException.
  destruct (ASSERT_enabled && negb (n <? 8)); [discriminate |].
  destruct (nth_error ExceptionName (Z.to_nat n)); destruct (BaseAddress g) eqn:Hb;
    try discriminate.
  intros Heq. inversion Heq; subst. simpl. auto.
Qed.

(** Every entry point but [EmulatorSetA20] leaves [A20Line] alone, none
    sets [VdmRunning] back to TRUE, and none loses the arena. *)
Lemma run_op_flags (o : operation) (g g' : globals) :
  run_op o g = Returned g' ->
  (sets_a20 o = false -> A20Line g' = A20Line g) /\
  (VdmRunning g = false -> VdmRunning g' = false) /\
  (BaseAddress g <> None -> BaseAddress g' <> None).
Proof.
  destruct o; simpl; intros Hrun.
  - destruct (EmulatorReadMemory g Address Buffer Size) as [[g1 b1] | |] eqn:Hr;
      simpl in Hrun; try discriminate.
    inversion Hrun; subst.
    apply EmulatorReadMemory_frame in Hr. unfold callback_frame in Hr.
    simpl. intuition congruence.
  - apply EmulatorWriteMemory_frame in Hrun. unfold callback_frame in Hrun.
    intuition congruence.
  - inversion Hrun; subst.
    pose proof (EmulatorIntAcknowledge_frame g) as Hf. unfold engine_frame in Hf.
    intuition congruence.
  - inversion Hrun; subst. simpl. intuition.
  - inversion Hrun; subst. unfold EmulatorCleanup. simpl.
    destruct (BaseAddress g) eqn:Hb; simpl; rewrite ?Hb; intuition congruence.
  - apply EmulatorException_flags in Hrun. intuition congruence.
  - inversion Hrun; subst. simpl. intuition.
  - inversion Hrun; subst. simpl. intuition.
  - inversion Hrun; subst. simpl. intuition.
  - apply EmulatorStep_spec in Hrun. intuition congruence.
  - inversion Hrun; subst. simpl. intuition congruence.
  - inversion Hrun; subst. simpl. intuition.
Qed.

Lemma run_halted (ops : list operation) :
  forall g g' : globals,
    VdmRunning g = false -> run ops g = Returned g' -> VdmRunning g' = false.
Proof.
  induction ops as [| o ops IH]; intros g g' Hh Hrun; simpl in Hrun.
  - now inversion Hrun; subst.
  - destruct (run_op o g) as [g1 | |] eqn:Ho; simpl in Hrun; try discriminate.
    apply IH with g1; [| assumption].
    apply run_op_flags in Ho. intuition.
Qed.

Lemma run_gate_stays_clear (ops : list operation) :
  forall g g' : globals,
    forallb (fun o => negb (enables_a20 o)) ops = true ->
    A20Line g = false -> run ops g = Returned g' -> A20Line g' = false.
Proof.
  induction ops as [| o ops IH]; intros g g' Hops Hgate Hrun; simpl in *.
  - now inversion Hrun; subst.
  - apply andb_true_iff in Hops. destruct Hops as [Ho Hops].
    destruct (run_op o g) as [g1 | |] eqn:Hop; simpl in Hrun; try discriminate.
    apply IH with g1; try assumption.
    destruct o; try (apply run_op_flags in Hop;
                     destruct Hop as (Ha & _); rewrite Ha by reflexivity; exact Hgate).
    destruct Enabled; [discriminate |].
    simpl in Hop. inversion Hop; subst. reflexivity.
Qed.

(** What [EmulatorException] does for the eight fault numbers once there
    is an arena. *)
Lemma EmulatorException_in_range (g : globals) (m : memory) n Stack :
  0 <= n < 8 -> BaseAddress g = Some m ->
  exists name,
    nth_error ExceptionName (Z.to_nat n) = Some name /\
    EmulatorException g n Stack
    = Returned
        (with_running false
           (log (EvDisplayMessage ExceptionFormat
                   (ArgString name
                    :: ArgWord (Stack STACK_CS)
                    :: ArgWord (Stack STACK_IP)
                    :: map ArgByte
                         (load m (TO_LINEAR (Stack STACK_CS) (Stack STACK_IP)) 10)))
              g)).
Proof.
  intros Hn Hb.
  assert (Hcases : n = 0 \/ n = 1 \/ n = 2 \/ n = 3 \/ n = 4 \/ n = 5 \/ n = 6 \/ n = 7)
    by lia.
  unfold EmulatorException.
  destruct (Z.ltb_spec n 8) as [_ | Hge]; [| lia].
  simpl negb. rewrite andb_false_r, Hb.
  repeat (destruct Hcases as [-> | Hcases]); try subst n;
    eexists; split; reflexivity.
Qed.

Lemma EmulatorInitialize_flags (hp : heap) ci co (g : globals) :
  A20Line (fst (EmulatorInitialize hp ci co g)) = A20Line g /\
  VdmRunning (fst (EmulatorInitialize hp ci co g)) = VdmRunning g.
Proof.
  unfold EmulatorInitialize. simpl.
  destruct (HeapAlloc hp HEAP_ZERO_MEMORY MAX_ADDRESS); simpl; auto.
Qed.

(** C3 (as amended).  On a machine with its arena, a fault report with a
    number in [0, 8) leaves [VdmRunning] FALSE, and no sequence of entry
    points brings it back to TRUE.  [EmulatorStep] is not guarded by the
    flag: called on the halted machine it still hands one instruction to
    the engine; looking at the flag between steps is left to the caller. *)
Theorem C3_fault_halts_for_good_step_unguarded (g : globals) (m : memory) n Stack :
  0 <= n < 8 -> BaseAddress g = Some m ->
  exists g1,
    EmulatorException g n Stack = Returned g1 /\
    VdmRunning g1 = false /\
    (forall ops g2, run ops g1 = Returned g2 -> VdmRunning g2 = false) /\
    (exists g2, EmulatorStep g1 = Returned g2 /\
                steps_executed g2 = S (steps_executed g1) /\
                VdmRunning g2 = false).
Proof.
  intros Hn Hb.
  destruct (EmulatorException_in_range g m n Stack Hn Hb) as (name & _ & Hex).
  eexists. split; [exact Hex |].
  split; [reflexivity |].
  split.
  - intros ops g2 Hrun. eapply run_halted; [| exact Hrun]. reflexivity.
  - match goal with
    | |- exists g2, EmulatorStep ?g1 = _ /\ _ =>
        destruct (EmulatorStep_returns g1) as [g2 Hstep];
        [simpl; rewrite Hb; discriminate |]
    end.
    exists g2. split; [exact Hstep |].
    apply EmulatorStep_spec in Hstep.
    destruct Hstep as (Hs & Hr & _). split; [exact Hs |].
    rewrite Hr. reflexivity.
Qed.

(** C7.  For a fault number in [0, 8), on a machine with its arena,
    [EmulatorException] takes CS and IP from the stack frame, hands
    [DisplayMessage] the name of that fault, the two words and the ten
    bytes found at the linear address of CS:IP, and sets [VdmRunning] to
    FALSE whatever it was; nothing else of the machine changes.  For a
    number of 8 or more a build that keeps [ASSERT] stops at the
    assertion. *)
Theorem C7_exception_report (g : globals) (m : memory) n Stack :
  BaseAddress g = Some m ->
  (0 <= n < 8 ->
   exists name g',
     nth_error ExceptionName (Z.to_nat n) = Some name /\
     EmulatorException g n Stack = Returned g' /\
     Trace g' = Trace g
                ++ [EvDisplayMessage ExceptionFormat
                      (ArgString name
                       :: ArgWord (Stack STACK_CS)
                       :: ArgWord (Stack STACK_IP)
                       :: map ArgByte
                            (load m (TO_LINEAR (Stack STACK_CS) (Stack STACK_IP)) 10))] /\
     List.length (load m (TO_LINEAR (Stack STACK_CS) (Stack STACK_IP)) 10) = 10%nat /\
     VdmRunning g' = false /\
     A20Line g' = A20Line g /\ BaseAddress g' = BaseAddress g /\
     EmulatorContext g' = EmulatorContext g /\ Vga g' = Vga g /\ Pic g' = Pic g)
  /\
  (8 <= n -> ASSERT_enabled = true -> EmulatorException g n Stack = AssertFailed).
Proof.
  intros Hb. split.
  - intros Hn.
    destruct (EmulatorException_in_range g m n Stack Hn Hb) as (name & Hname & Hex).
    exists name. eexists.
    split; [exact Hname |]. split; [exact Hex |].
    simpl. repeat split.
  - intros Hn Hdbg. unfold EmulatorException. rewrite Hdbg.
    destruct (Z.ltb_spec n 8); [lia | reflexivity].
Qed.

(** In a build without [ASSERT] a number of 8 or more indexes past the
    end of [ExceptionName]. *)
Lemma EmulatorException_past_table (g : globals) n Stack :
  8 <= n -> ASSERT_enabled = false -> EmulatorException g n Stack = Undefined.
Proof.
  intros Hn Hdbg. unfold EmulatorException. rewrite Hdbg. simpl.
  assert (Hnone : nth_error ExceptionName (Z.to_nat n) = None)
    by (apply nth_error_None; simpl; lia).
  rewrite Hnone. reflexivity.
Qed.

(** C8.  [EmulatorInitialize] returns FALSE exactly when [HeapAlloc] gives
    NULL; what the later steps return is not looked at.  When it returns
    TRUE the arena is there and each of its [MAX_ADDRESS] bytes is zero. *)
Theorem C8_initialize_fails_only_on_allocation (hp : heap) ci co (g : globals) :
  (snd (EmulatorInitialize hp ci co g) = false
   <-> HeapAlloc hp HEAP_ZERO_MEMORY MAX_ADDRESS = None) /\
  (snd (EmulatorInitialize hp ci co g) = true ->
   exists m, BaseAddress (fst (EmulatorInitialize hp ci co g)) = Some m /\
             forall off, 0 <= off < MAX_ADDRESS -> m off = x00).
Proof.
  unfold EmulatorInitialize. simpl.
  unfold HeapAlloc.
  destruct (MAX_ADDRESS <=? heap_room hp); simpl.
  - split; [split; discriminate |].
    intros _. eexists. split; [reflexivity |].
    intros off Hoff. unfold zero_filled.
    destruct (Z.leb_spec 0 off); [| lia].
    destruct (Z.gtb_spec MAX_ADDRESS off); [reflexivity | lia].
  - split; [split; reflexivity | discriminate].
Qed.

(** C9.  A memory read or write that returns leaves [A20Line] and
    [VdmRunning] as they were.  [EmulatorSetA20] puts its argument in
    [A20Line] and changes no other part of the machine, and it is the only
    entry point after which [A20Line] can differ. *)
Theorem C9_flags_frame :
  (forall (g g' : globals) Address Buffer Size Buffer',
      EmulatorReadMemory g Address Buffer Size = Returned (g', Buffer') ->
      A20Line g' = A20Line g /\ VdmRunning g' = VdmRunning g)
  /\
  (forall (g g' : globals) Address Buffer Size,
      EmulatorWriteMemory g Address Buffer Size = Returned g' ->
      A20Line g' = A20Line g /\ VdmRunning g' = VdmRunning g)
  /\
  (forall (g : globals) Enabled,
      EmulatorSetA20 g Enabled
      = mkGlobals (EmulatorContext g) (BaseAddress g) (VdmRunning g) Enabled
                  (Vga g) (Pic g) (Trace g))
  /\
  (forall (o : operation) (g g' : globals),
      sets_a20 o = false -> run_op o g = Returned g' -> A20Line g' = A20Line g).
Proof.
  split; [| split; [| split]].
  - intros g g' Address Buffer Size Buffer' Hr.
    apply EmulatorReadMemory_frame in Hr. unfold callback_frame in Hr. intuition.
  - intros g g' Address Buffer Size Hw.
    apply EmulatorWriteMemory_frame in Hw. unfold callback_frame in Hw. intuition.
  - reflexivity.
  - intros o g g' Ho Hrun. apply run_op_flags in Hrun. intuition.
Qed.

(** C10.  [A20Line] starts FALSE and [EmulatorInitialize] does not touch
    it: after a successful initialisation, and after any calls among which
    none is [EmulatorSetA20(TRUE)], the gate is clear and every read and
    write is the access at the address with bit 20 cleared. *)
Theorem C10_gate_initially_clear (hp : heap) ci co (c : C) (v : V) (p : P)
    (g0 g : globals) (ops : list operation) :
  EmulatorInitialize hp ci co (globals_at_load c v p) = (g0, true) ->
  forallb (fun o => negb (enables_a20 o)) ops = true ->
  run ops g0 = Returned g ->
  A20Line g0 = false /\
  A20Line g = false /\
  forall Address Buffer Size,
    is_ulong Address ->
    a20_masked g Address = Z.clearbit Address 20 /\
    EmulatorReadMemory g Address Buffer Size
      = EmulatorReadMemory g (Z.clearbit Address 20) Buffer Size /\
    EmulatorWriteMemory g Address Buffer Size
      = EmulatorWriteMemory g (Z.clearbit Address 20) Buffer Size.
Proof.
  intros Hinit Hops Hrun.
  assert (Hg0 : A20Line g0 = false).
  { pose proof (EmulatorInitialize_flags hp ci co (globals_at_load c v p)) as [Ha _].
    rewrite Hinit in Ha. exact Ha. }
  assert (Hg : A20Line g = false) by (eapply run_gate_stays_clear; eassumption).
  repeat split; try assumption.
  - unfold a20_masked. rewrite Hg. simpl. now apply mask_is_clearbit.
  - apply EmulatorReadMemory_masked. unfold a20_masked. rewrite Hg. simpl.
    rewrite <- (mask_is_clearbit Address) by assumption.
    symmetry. apply mask_idempotent.
  - apply EmulatorWriteMemory_masked. unfold a20_masked. rewrite Hg. simpl.
    rewrite <- (mask_is_clearbit Address) by assumption.
    symmetry. apply mask_idempotent.
Qed.

End Control.

(* ================================================================== *)
(** ** The scenario of the design document

    [MAX_ADDRESS = 0x100000], A20 clear, read-only block
    [0xF0000, 0x100000), video block [0xA0000, 0xB8000). *)

Section Scenario.

Variable debug : bool.
Context {V P C : Type} {VGA : VgaDevice V} {PIC : PicDevice P} {CPU : Fast486 C}.

Local Abbreviation globals := (globals V P C).
Local Abbreviation write := (EmulatorWriteMemory (H := scenario_h debug)).

Lemma scenario_mask_small (g : globals) (a : Z) :
  0 <= a < 2 ^ 20 -> a20_masked g a = a.
Proof.
  intros Ha. unfold a20_masked.
  destruct (A20Line g); simpl; [reflexivity |].
  rewrite mask_is_clearbit by (unfold is_ulong; lia).
  apply Z.bits_inj'. intros n Hn.
  rewrite Z.clearbit_eqb.
  destruct (Z.eqb_spec 20 n) as [<- | Hne]; cbn [negb].
  - rewrite andb_false_r. symmetry.
    destruct (Z.eq_dec a 0) as [-> | Hnz]; [apply Z.bits_0 |].
    apply Z.bits_above_log2; [lia |].
    apply Z.log2_lt_pow2; lia.
  - apply andb_true_r.
Qed.

(** C2, at the write the code gets wrong.  The one-byte write at 0xEFFFF
    is in bounds and ends where the read-only block begins, so it lies
    outside the block; the code nevertheless returns without storing the
    byte, whatever the payload and the state of the gate. *)
Theorem C2_write_ending_below_rom_is_dropped (g : globals) Buffer :
  0xEFFFF + 1 < MAX_ADDRESS (emulator_h := scenario_h debug) /\
  0xEFFFF + 1 <= ROM_AREA_START (emulator_h := scenario_h debug) /\
  write g 0xEFFFF Buffer 1 = Returned g.
Proof.
  split; [reflexivity |]. split; [discriminate |].
  apply write_ending_at_rom_start_dropped; simpl;
    rewrite ?scenario_mask_small by lia; lia.
Qed.

(** The same write one byte lower is stored. *)
Lemma write_two_below_rom_is_stored (g : globals) (m : memory) (b : byte) :
  BaseAddress g = Some m ->
  exists g', write g 0xEFFFE [b] 1 = Returned g' /\
             BaseAddress g' = Some (store m 0xEFFFE [b]).
Proof.
  intros Hb.
  destruct (write_clear_of_rom_stored (H := scenario_h debug) g m 0xEFFFE [b] 1 Hb)
    as (g' & Hw & Hb' & _); simpl;
    rewrite ?scenario_mask_small by lia; try lia; try reflexivity.
  exists g'. split; [exact Hw |].
  now rewrite scenario_mask_small in Hb' by lia.
Qed.

(** C5.  The video block [0xA0000, 0xB8000) is the one whose adapter
    reports 0xA0000 as base and 0xB7FFF, its last byte, as limit.  With
    the gate clear the four-byte write at 0xB7FFE puts all four bytes in
    the arena and then calls the adapter's write entry point at 0xB7FFE
    with a length of 2, the bytes at 0xB7FFE and 0xB7FFF.  The 16-byte
    write at 0xF0000 returns with the machine as it was. *)
Theorem C5_straddling_write_forwards_two_bytes (g : globals) (m : memory)
    (b0 b1 b2 b3 : byte) :
  A20Line g = false ->
  BaseAddress g = Some m ->
  VgaGetVideoBaseAddress (Vga g) = 0xA0000 ->
  VgaGetVideoLimitAddress (Vga g) = 0xB7FFF ->
  (exists g',
      write g 0xB7FFE [b0; b1; b2; b3] 4 = Returned g' /\
      BaseAddress g' = Some (store m 0xB7FFE [b0; b1; b2; b3]) /\
      load (store m 0xB7FFE [b0; b1; b2; b3]) 0xB7FFE 4 = [b0; b1; b2; b3] /\
      Trace g' = Trace g ++ [EvVgaWriteMemory 0xB7FFE [b0; b1] 2] /\
      Vga g' = VgaWriteMemory (Vga g) 0xB7FFE [b0; b1] 2) /\
  (forall Buffer, write g 0xF0000 Buffer 16 = Returned g).
Proof.
  intros Hgate Hb Hbase Hlimit.
  split.
  - assert (Hm : a20_masked g 0xB7FFE = 0xB7FFE) by (apply scenario_mask_small; lia).
    assert (Htouch : touches_vga g 0xB7FFE 4 = true)
      by (unfold touches_vga; rewrite Hbase, Hlimit; reflexivity).
    assert (Hlo : VgaAddress_of g 0xB7FFE = 0xB7FFE)
      by (unfold VgaAddress_of; rewrite Hbase; reflexivity).
    assert (Hn : ActualSize_of g 0xB7FFE 4 = 2)
      by (unfold ActualSize_of; rewrite Hlo, Hlimit; reflexivity).
    eexists. split.
    + rewrite write_through_vga with (m := m); rewrite ?Hm;
        [| assumption | reflexivity | reflexivity | assumption].
      cbv zeta. rewrite ?Hm, Hlo, Hn. reflexivity.
    + repeat split.
  - intros Buffer.
    apply write_meeting_rom_dropped; simpl;
      rewrite ?scenario_mask_small by lia; lia.
Qed.

(** Were the adapter to report 0xB8000, one past the block, as its limit,
    the length formula would count the byte at 0xB8000 in: the same write
    would forward three bytes. *)
Lemma straddling_write_with_limit_one_past (g : globals) (m : memory)
    (b0 b1 b2 b3 : byte) :
  A20Line g = false ->
  BaseAddress g = Some m ->
  VgaGetVideoBaseAddress (Vga g) = 0xA0000 ->
  VgaGetVideoLimitAddress (Vga g) = 0xB8000 ->
  exists g',
    write g 0xB7FFE [b0; b1; b2; b3] 4 = Returned g' /\
    Trace g' = Trace g ++ [EvVgaWriteMemory 0xB7FFE [b0; b1; b2] 3].
Proof.
  intros Hgate Hb Hbase Hlimit.
  assert (Hm : a20_masked g 0xB7FFE = 0xB7FFE) by (apply scenario_mask_small; lia).
  assert (Htouch : touches_vga g 0xB7FFE 4 = true)
    by (unfold touches_vga; rewrite Hbase, Hlimit; reflexivity).
  assert (Hlo : VgaAddress_of g 0xB7FFE = 0xB7FFE)
    by (unfold VgaAddress_of; rewrite Hbase; reflexivity).
  assert (Hn : ActualSize_of g 0xB7FFE 4 = 3)
    by (unfold ActualSize_of; rewrite Hlo, Hlimit; reflexivity).
  eexists. split.
  - rewrite write_through_vga with (m := m); rewrite ?Hm;
      [| assumption | reflexivity | reflexivity | assumption].
    cbv zeta. rewrite ?Hm, Hlo, Hn. reflexivity.
  - reflexivity.
Qed.

End Scenario.

(* ================================================================== *)
(** ** Runs of the concrete machine *)

Ltac by_running := vm_compute; repeat split; first [reflexivity | discriminate].

(** The claim C1 read on the address as passed: with the gate clear the
    four-byte access at 0x100600 has [address + length] beyond
    [MAX_ADDRESS], yet bit 20 is masked first and the access goes to
    0x600: the read fills the caller's buffer and the write changes the
    arena. *)
Lemma C1_counterexample_masked_into_range :
  let g := patterned_machine false in
  MAX_ADDRESS (emulator_h := scenario_h false) <= 0x100600 + 4 /\
  EmulatorReadMemory (H := scenario_h false) g 0x100600 [xff; xff; xff; xff] 4
    = Returned (g, [xaa; xbb; xcc; xdd]) /\
  exists g',
    EmulatorWriteMemory (H := scenario_h false) g 0x100600 [x01; x02; x03; x04] 4
      = Returned g' /\
    peek g 0x600 = Some xaa /\ peek g' 0x600 = Some x01.
Proof.
  cbv zeta. split; [by_running |]. split; [by_running |].
  eexists. split; [vm_compute; reflexivity |]. split; by_running.
Qed.

(** The 32-bit sum wraps: with the gate enabled, 0xFFFFFFFF + 2 is 1 for
    the range test, which therefore lets the request through although
    address plus length is far beyond [MAX_ADDRESS]. *)
Lemma wrapped_sum_passes_the_test :
  let g := EmulatorSetA20 (patterned_machine false) true in
  ulong (0xFFFFFFFF + 2) = 1 /\
  MAX_ADDRESS (emulator_h := scenario_h false) <= a20_masked g 0xFFFFFFFF + 2 /\
  (ulong (a20_masked g 0xFFFFFFFF + 2)
     >=? MAX_ADDRESS (emulator_h := scenario_h false)) = false.
Proof. cbv zeta. repeat split; by_running. Qed.

(** C1 (as amended) at the two-byte access at 0xFFFFE of the scenario machine. *)
Lemma C1_witness :
  let g := patterned_machine false in
  0 <= a20_masked g 0xFFFFE + 2 < 2 ^ 32 /\
  MAX_ADDRESS (emulator_h := scenario_h false) <= a20_masked g 0xFFFFE + 2 /\
  EmulatorReadMemory (H := scenario_h false) g 0xFFFFE [xff; xff] 2
    = Returned (g, [xff; xff]) /\
  EmulatorWriteMemory (H := scenario_h false) g 0xFFFFE [xff; xff] 2 = Returned g.
Proof.
  cbv zeta.
  assert (Hfit : 0 <= a20_masked (patterned_machine false) 0xFFFFE + 2 < 2 ^ 32)
    by by_running.
  assert (Hout : MAX_ADDRESS (emulator_h := scenario_h false)
                 <= a20_masked (patterned_machine false) 0xFFFFE + 2)
    by by_running.
  split; [exact Hfit |]. split; [exact Hout |].
  exact (C1_masked_out_of_range_is_dropped (H := scenario_h false)
           (patterned_machine false) 0xFFFFE [xff; xff] 2 Hfit Hout).
Defined.

(** The claim C3 says a step on a halted machine does nothing.  On the
    machine stopped by an invalid-opcode report, [EmulatorStep] hands the
    engine one more instruction, which copies the byte at 0x600 to 0x500
    and moves the instruction pointer on. *)
Lemma C3_counterexample_step_after_halt :
  EmulatorException (H := scenario_h false)
    (EmulatorExecute (patterned_machine false) 0x60 0) 6 demo_frame
    = Returned halted_machine /\
  VdmRunning halted_machine = false /\
  exists g2,
    EmulatorStep (H := scenario_h false) halted_machine = Returned g2 /\
    steps_executed halted_machine = 0%nat /\ steps_executed g2 = 1%nat /\
    peek halted_machine 0x500 = Some x00 /\ peek g2 0x500 = Some xaa /\
    EmulatorContext halted_machine = 0x600 /\ EmulatorContext g2 = 0x601.
Proof.
  split; [by_running |]. split; [by_running |].
  eexists. split; [vm_compute; reflexivity |]. by_running.
Qed.

(** C3 (as amended) at an invalid-opcode report on the scenario machine. *)
Lemma C3_witness :
  let g := EmulatorExecute (patterned_machine false) 0x60 0 in
  0 <= 6 < 8 /\
  BaseAddress g = Some (patterned_arena) /\
  exists g1,
    EmulatorException (H := scenario_h false) g 6 demo_frame = Returned g1 /\
    VdmRunning g1 = false /\
    (forall ops g2, run (H := scenario_h false) ops g1 = Returned g2 ->
                    VdmRunning g2 = false) /\
    (exists g2, EmulatorStep (H := scenario_h false) g1 = Returned g2 /\
                steps_executed g2 = S (steps_executed g1) /\
                VdmRunning g2 = false).
Proof.
  cbv zeta.
  assert (Hn : 0 <= 6 < 8) by lia.
  assert (Hb : BaseAddress (EmulatorExecute (patterned_machine false) 0x60 0)
               = Some (patterned_arena))
    by reflexivity.
  split; [exact Hn |]. split; [exact Hb |].
  exact (C3_fault_halts_for_good_step_unguarded (H := scenario_h false)
           _ _ 6 demo_frame Hn Hb).
Defined.

(** C6 at offset 0x600 of the scenario machine. *)
Lemma C6_witness :
  let g := patterned_machine false in
  A20Line g = false /\
  EmulatorReadMemory (H := scenario_h false) g (Z.lor 0x600 (Z.shiftl 1 20)) [xff] 1
    = EmulatorReadMemory (H := scenario_h false) g 0x600 [xff] 1 /\
  EmulatorWriteMemory (H := scenario_h false) g (Z.lor 0x600 (Z.shiftl 1 20)) [xff] 1
    = EmulatorWriteMemory (H := scenario_h false) g 0x600 [xff] 1 /\
  EmulatorReadMemory (H := scenario_h false) g 0x600 [xff] 1
    = EmulatorReadMemory (H := scenario_h false) g (Z.land 0x600 A20_MASK) [xff] 1 /\
  EmulatorWriteMemory (H := scenario_h false) g 0x600 [xff] 1
    = EmulatorWriteMemory (H := scenario_h false) g (Z.land 0x600 A20_MASK) [xff] 1.
Proof.
  cbv zeta.
  assert (Hgate : A20Line (patterned_machine false) = false) by reflexivity.
  split; [exact Hgate |].
  exact (C6_a20_clear_aliases_bit20 (H := scenario_h false)
           (patterned_machine false) 0x600 [xff] 1 Hgate).
Defined.

(** The three parts at accesses of the scenario machine: a read and a
    write of four bytes that start two bytes before the end of the video
    block, and two bytes written inside the block and read back. *)
Lemma device_mirroring_before_limit_runs :
  let g := patterned_machine false in
  let m := patterned_arena in
  (exists g' Buffer',
      EmulatorReadMemory (H := scenario_h false) g 0xB7FFE [xff; xff; xff; xff] 4
        = Returned (g', Buffer') /\
      Trace g' = Trace g ++ [EvVgaReadMemory 0xB7FFE 2] /\
      0xB7FFE + 2 = Z.min (0xB7FFE + 4) (VgaGetVideoLimitAddress (Vga g) + 1) /\
      Vga g' = scenario_vga /\
      BaseAddress g' = Some (store m 0xB7FFE [x11; x11]) /\
      Buffer' = load (store m 0xB7FFE [x11; x11]) 0xB7FFE 4
                ++ skipn (Z.to_nat 4) [xff; xff; xff; xff] /\
      forall x, 0xB7FFE <= x < 0xB7FFE + 2 ->
                nth (Z.to_nat (x - 0xB7FFE)) Buffer' x00
                = nth (Z.to_nat (x - 0xB7FFE)) [x11; x11] x00) /\
  (exists g',
      EmulatorWriteMemory (H := scenario_h false) g 0xB7FFE [x01; x02; x03; x04] 4
        = Returned g' /\
      BaseAddress g' = Some (store m 0xB7FFE [x01; x02; x03; x04]) /\
      load (store m 0xB7FFE [x01; x02; x03; x04]) 0xB7FFE 4 = [x01; x02; x03; x04] /\
      Trace g' = Trace g
                 ++ [EvVgaWriteMemory 0xB7FFE
                       (load (store m 0xB7FFE [x01; x02; x03; x04]) 0xB7FFE 2) 2] /\
      0xB7FFE + 2 = Z.min (0xB7FFE + 4) (VgaGetVideoLimitAddress (Vga g) + 1) /\
      Vga g' = VgaWriteMemory (Vga g) 0xB7FFE
                 (load (store m 0xB7FFE [x01; x02; x03; x04]) 0xB7FFE 2) 2) /\
  (exists g1 g2,
      EmulatorWriteMemory (H := scenario_h false) g 0xA0010 [x01; x02] 2
        = Returned g1 /\
      Vga g1 = VgaWriteMemory (Vga g) 0xA0010 [x01; x02] 2 /\
      EmulatorReadMemory (H := scenario_h false) g1 0xA0010 [xff; xff] 2
        = Returned (g2, fst (VgaReadMemory
                               (VgaWriteMemory (Vga g) 0xA0010 [x01; x02] 2)
                               0xA0010 2)
                        ++ skipn (Z.to_nat 2) [xff; xff]) /\
      Trace g2 = Trace g ++ [EvVgaWriteMemory 0xA0010 [x01; x02] 2;
                             EvVgaReadMemory 0xA0010 2]).
Proof.
  cbv zeta.
  destruct (device_mirroring_before_limit (H := scenario_h false)
              (V := plane_vga) (P := list byte) (C := Z))
    as (Hread & Hwrite & Hround).
  assert (Hb : BaseAddress (patterned_machine false) = Some patterned_arena)
    by reflexivity.
  assert (Hmax : MAX_ADDRESS (emulator_h := scenario_h false) <= 2 ^ 32) by by_running.
  assert (Ha : 0xB7FFE = a20_masked (patterned_machine false) 0xB7FFE) by by_running.
  assert (Hin : 0xB7FFE + 4 < MAX_ADDRESS (emulator_h := scenario_h false))
    by by_running.
  assert (Hlo : 0xB7FFE = Z.max 0xB7FFE
                            (VgaGetVideoBaseAddress (Vga (patterned_machine false))))
    by by_running.
  assert (Hmeet : 0xB7FFE < Z.min (0xB7FFE + 4)
                              (VgaGetVideoLimitAddress (Vga (patterned_machine false))))
    by by_running.
  assert (Hn : 2 = ActualSize_of (patterned_machine false) 0xB7FFE 4) by by_running.
  split; [| split].
  - assert (Hdev : VgaReadMemory (Vga (patterned_machine false)) 0xB7FFE 2
                   = ([x11; x11], scenario_vga)) by by_running.
    exact (Hread (patterned_machine false) _ 0xB7FFE [xff; xff; xff; xff] 4
                 0xB7FFE 0xB7FFE 2 [x11; x11] scenario_vga
                 Hb Hmax Ha ltac:(lia) Hin Hlo Hmeet Hn Hdev).
  - assert (Hclear : 0xB7FFE + 4 < ROM_AREA_START (emulator_h := scenario_h false)
                     \/ ROM_AREA_END (emulator_h := scenario_h false) <= 0xB7FFE)
      by (left; by_running).
    assert (Hlen : List.length [x01; x02; x03; x04] = Z.to_nat 4) by reflexivity.
    exact (Hwrite (patterned_machine false) _ 0xB7FFE [x01; x02; x03; x04] 4
                  0xB7FFE 0xB7FFE 2 _
                  Hb Hmax Ha ltac:(lia) Hin Hclear Hlen Hlo Hmeet Hn eq_refl).
  - assert (Ha' : 0xA0010 = a20_masked (patterned_machine false) 0xA0010) by by_running.
    assert (Hin' : 0xA0010 + 2 < MAX_ADDRESS (emulator_h := scenario_h false))
      by by_running.
    assert (Hclear : 0xA0010 + 2 < ROM_AREA_START (emulator_h := scenario_h false)
                     \/ ROM_AREA_END (emulator_h := scenario_h false) <= 0xA0010)
      by (left; by_running).
    assert (Hlen : List.length [x01; x02] = Z.to_nat 2) by reflexivity.
    assert (Hbase : VgaGetVideoBaseAddress (Vga (patterned_machine false)) <= 0xA0010)
      by by_running.
    assert (Hlimit : 0xA0010 + 2 <= VgaGetVideoLimitAddress (Vga (patterned_machine false)))
      by by_running.
    assert (Hbase1 : VgaGetVideoBaseAddress
                       (VgaWriteMemory (Vga (patterned_machine false)) 0xA0010
                                       [x01; x02] 2) <= 0xA0010)
      by by_running.
    assert (Hlimit1 : 0xA0010 + 2
                      <= VgaGetVideoLimitAddress
                           (VgaWriteMemory (Vga (patterned_machine false)) 0xA0010
                                           [x01; x02] 2))
      by by_running.
    exact (Hround (patterned_machine false) _ 0xA0010 [x01; x02] [xff; xff] 2 0xA0010 _
                  Hb Hmax Ha' ltac:(lia) ltac:(lia) Hin' Hclear Hlen Hbase Hlimit eq_refl
                  Hbase1 Hlimit1).
Qed.

(** C5 on the scenario machine with the payload 01 02 03 04. *)
Lemma C5_witness :
  let g := patterned_machine false in
  A20Line g = false /\
  BaseAddress g = Some patterned_arena /\
  VgaGetVideoBaseAddress (Vga g) = 0xA0000 /\
  VgaGetVideoLimitAddress (Vga g) = 0xB7FFF /\
  (exists g',
      EmulatorWriteMemory (H := scenario_h false) g 0xB7FFE [x01; x02; x03; x04] 4
        = Returned g' /\
      BaseAddress g' = Some (store patterned_arena 0xB7FFE [x01; x02; x03; x04]) /\
      load (store patterned_arena 0xB7FFE [x01; x02; x03; x04]) 0xB7FFE 4
        = [x01; x02; x03; x04] /\
      Trace g' = Trace g ++ [EvVgaWriteMemory 0xB7FFE [x01; x02] 2] /\
      Vga g' = VgaWriteMemory (Vga g) 0xB7FFE [x01; x02] 2) /\
  (forall Buffer,
      EmulatorWriteMemory (H := scenario_h false) g 0xF0000 Buffer 16 = Returned g).
Proof.
  cbv zeta.
  assert (Hgate : A20Line (patterned_machine false) = false) by reflexivity.
  assert (Hb : BaseAddress (patterned_machine false) = Some patterned_arena)
    by reflexivity.
  assert (Hbase : VgaGetVideoBaseAddress (Vga (patterned_machine false)) = 0xA0000)
    by reflexivity.
  assert (Hlimit : VgaGetVideoLimitAddress (Vga (patterned_machine false)) = 0xB7FFF)
    by reflexivity.
  split; [exact Hgate |]. split; [exact Hb |].
  split; [exact Hbase |]. split; [exact Hlimit |].
  exact (C5_straddling_write_forwards_two_bytes false (patterned_machine false) _
           x01 x02 x03 x04 Hgate Hb Hbase Hlimit).
Defined.

(** C7 at fault 6 and at the number 9 on a debug build of the scenario machine. *)
Lemma C7_witness :
  let g := patterned_machine true in
  let m := patterned_arena in
  BaseAddress g = Some m /\
  0 <= 6 < 8 /\
  (exists name g',
      nth_error ExceptionName (Z.to_nat 6) = Some name /\
      EmulatorException (H := scenario_h true) g 6 demo_frame = Returned g' /\
      Trace g' = Trace g
                 ++ [EvDisplayMessage ExceptionFormat
                       (ArgString name
                        :: ArgWord (demo_frame 3)
                        :: ArgWord (demo_frame 2)
                        :: map ArgByte (load m (Z.shiftl (demo_frame 3) 4 + demo_frame 2) 10))] /\
      List.length (load m (Z.shiftl (demo_frame 3) 4 + demo_frame 2) 10) = 10%nat /\
      VdmRunning g' = false /\
      A20Line g' = A20Line g /\ BaseAddress g' = BaseAddress g /\
      EmulatorContext g' = EmulatorContext g /\ Vga g' = Vga g /\ Pic g' = Pic g) /\
  8 <= 9 /\
  ASSERT_enabled (emulator_h := scenario_h true) = true /\
  EmulatorException (H := scenario_h true) g 9 demo_frame = AssertFailed.
Proof.
  cbv zeta.
  assert (Hb : BaseAddress (patterned_machine true)
               = Some (patterned_arena)) by reflexivity.
  assert (Hin : 0 <= 6 < 8) by lia.
  assert (Hout : 8 <= 9) by lia.
  assert (Hdbg : ASSERT_enabled (emulator_h := scenario_h true) = true) by reflexivity.
  split; [exact Hb |]. split; [exact Hin |].
  split; [exact (proj1 (C7_exception_report (H := scenario_h true)
                          (patterned_machine true) _ 6 demo_frame Hb) Hin) |].
  split; [exact Hout |]. split; [exact Hdbg |].
  exact (proj2 (C7_exception_report (H := scenario_h true)
                  (patterned_machine true) _ 9 demo_frame Hb) Hout Hdbg).
Defined.

(** C8 with a heap that has room for the arena and with one that has not. *)
Lemma C8_witness :
  let fresh := globals_at_load 0 scenario_vga [x08] in
  snd (EmulatorInitialize (H := scenario_h false) roomy_heap 3 7 fresh) = true /\
  (exists m,
      BaseAddress (fst (EmulatorInitialize (H := scenario_h false) roomy_heap 3 7 fresh))
        = Some m /\
      forall off, 0 <= off < MAX_ADDRESS (emulator_h := scenario_h false) ->
                  m off = x00) /\
  HeapAlloc full_heap HEAP_ZERO_MEMORY (MAX_ADDRESS (emulator_h := scenario_h false))
    = None /\
  snd (EmulatorInitialize (H := scenario_h false) full_heap 3 7 fresh) = false.
Proof.
  cbv zeta.
  assert (Hok : snd (EmulatorInitialize (H := scenario_h false) roomy_heap 3 7
                       (globals_at_load 0 scenario_vga [x08])) = true)
    by reflexivity.
  assert (Hnull : HeapAlloc full_heap HEAP_ZERO_MEMORY
                    (MAX_ADDRESS (emulator_h := scenario_h false)) = None)
    by reflexivity.
  split; [exact Hok |].
  split; [exact (proj2 (C8_initialize_fails_only_on_allocation
                          (H := scenario_h false) roomy_heap 3 7
                          (globals_at_load 0 scenario_vga [x08])) Hok) |].
  split; [exact Hnull |].
  exact (proj2 (proj1 (C8_initialize_fails_only_on_allocation
                         (H := scenario_h false) full_heap 3 7
                         (globals_at_load 0 scenario_vga [x08]))) Hnull).
Defined.

(** C9 at a write, a read, a gate change and a step of the scenario machine. *)
Lemma C9_witness :
  let g := patterned_machine false in
  let written := returned_or g
                   (EmulatorWriteMemory (H := scenario_h false) g 0xA0010 [x01; x02] 2) in
  let stepped := returned_or g (run_op (H := scenario_h false) OpStep g) in
  (EmulatorWriteMemory (H := scenario_h false) g 0xA0010 [x01; x02] 2 = Returned written /\
   A20Line written = A20Line g /\ VdmRunning written = VdmRunning g) /\
  (EmulatorReadMemory (H := scenario_h false) g 0x600 [xff; xff] 2
     = Returned (g, [xaa; xbb]) /\
   A20Line g = A20Line g /\ VdmRunning g = VdmRunning g) /\
  EmulatorSetA20 g true
    = mkGlobals (EmulatorContext g) (BaseAddress g) (VdmRunning g) true
                (Vga g) (Pic g) (Trace g) /\
  (sets_a20 OpStep = false /\
   run_op (H := scenario_h false) OpStep g = Returned stepped /\
   A20Line stepped = A20Line g).
Proof.
  cbv zeta.
  destruct (C9_flags_frame (H := scenario_h false)
              (V := plane_vga) (P := list byte) (C := Z))
    as (Hread & Hwrite & Hset & Hops).
  assert (Hw : EmulatorWriteMemory (H := scenario_h false) (patterned_machine false)
                 0xA0010 [x01; x02] 2
               = Returned (returned_or (patterned_machine false)
                             (EmulatorWriteMemory (H := scenario_h false)
                                (patterned_machine false) 0xA0010 [x01; x02] 2)))
    by (vm_compute; reflexivity).
  assert (Hr : EmulatorReadMemory (H := scenario_h false) (patterned_machine false)
                 0x600 [xff; xff] 2
               = Returned (patterned_machine false, [xaa; xbb]))
    by (vm_compute; reflexivity).
  assert (Hs : run_op (H := scenario_h false) OpStep (patterned_machine false)
               = Returned (returned_or (patterned_machine false)
                             (run_op (H := scenario_h false) OpStep
                                (patterned_machine false))))
    by (vm_compute; reflexivity).
  split; [| split; [| split]].
  - split; [exact Hw |]. exact (Hwrite _ _ _ _ _ Hw).
  - split; [exact Hr |]. exact (Hread _ _ _ _ _ _ Hr).
  - exact (Hset (patterned_machine false) true).
  - split; [reflexivity |]. split; [exact Hs |].
    exact (Hops OpStep _ _ eq_refl Hs).
Defined.

(** C10 at three calls made after the start-up of the scenario machine. *)
Lemma C10_witness :
  EmulatorInitialize (H := scenario_h false) roomy_heap 3 7
    (globals_at_load 0 scenario_vga [x08]) = (scenario_machine false, true) /\
  forallb (fun o => negb (enables_a20 o)) quiet_calls = true /\
  run (H := scenario_h false) quiet_calls (scenario_machine false)
    = Returned machine_after_quiet_calls /\
  A20Line (scenario_machine false) = false /\
  A20Line machine_after_quiet_calls = false /\
  forall Address Buffer Size,
    is_ulong Address ->
    a20_masked machine_after_quiet_calls Address = Z.clearbit Address 20 /\
    EmulatorReadMemory (H := scenario_h false) machine_after_quiet_calls
                       Address Buffer Size
      = EmulatorReadMemory (H := scenario_h false) machine_after_quiet_calls
                           (Z.clearbit Address 20) Buffer Size /\
    EmulatorWriteMemory (H := scenario_h false) machine_after_quiet_calls
                        Address Buffer Size
      = EmulatorWriteMemory (H := scenario_h false) machine_after_quiet_calls
                            (Z.clearbit Address 20) Buffer Size.
Proof.
  assert (Hinit : EmulatorInitialize (H := scenario_h false) roomy_heap 3 7
                    (globals_at_load 0 scenario_vga [x08])
                  = (scenario_machine false, true)) by reflexivity.
  assert (Hops : forallb (fun o => negb (enables_a20 o)) quiet_calls = true)
    by reflexivity.
  assert (Hrun : run (H := scenario_h false) quiet_calls (scenario_machine false)
                 = Returned machine_after_quiet_calls)
    by (vm_compute; reflexivity).
  split; [exact Hinit |]. split; [exact Hops |]. split; [exact Hrun |].
  exact (C10_gate_initially_clear (H := scenario_h false) roomy_heap 3 7
           0 scenario_vga [x08] _ _ quiet_calls Hinit Hops Hrun).
Defined.

(* ================================================================== *)
(** ** Further properties of the memory callbacks *)

Section MemoryBounds.

Context {H : emulator_h}.
Context {V P C : Type} {VGA : VgaDevice V} {PIC : PicDevice P} {CPU : Fast486 C}.

Local Abbreviation globals := (globals V P C).

Lemma firstn_fits (Buffer : list byte) (Size : Z) :
  0 <= Size -> Z.of_nat (List.length (firstn (Z.to_nat Size) Buffer)) <= Size.
Proof. intros Hs. rewrite length_firstn. lia. Qed.

Lemma skipn_load_app (m : memory) (off n : Z) (l : list byte) :
  skipn (Z.to_nat n) (load m off n ++ l) = l.
Proof.
  rewrite skipn_app, load_length, Nat.sub_diag, skipn_all2
    by (rewrite load_length; lia).
  reflexivity.
Qed.

(** The two ways a write returns: nothing done, or the payload stored. *)
Lemma EmulatorWriteMemory_cases (g g' : globals) Address Buffer Size :
  EmulatorWriteMemory g Address Buffer Size = Returned g' ->
  g' = g \/
  exists m,
    BaseAddress g = Some m /\
    BaseAddress g'
      = Some (store m (a20_masked g Address) (firstn (Z.to_nat Size) Buffer)) /\
    ulong (a20_masked g Address + Size) < MAX_ADDRESS /\
    (ulong (a20_masked g Address + Size) >=? ROM_AREA_START)
      && (a20_masked g Address <? ROM_AREA_END) = false.
Proof.
  unfold EmulatorWriteMemory.
  destruct (Z.geb_spec (ulong (a20_masked g Address + Size)) MAX_ADDRESS) as [Hge | Hlt].
  { intros Heq. inversion Heq. now left. }
  destruct ((ulong (a20_masked g Address + Size) >=? ROM_AREA_START)
            && (a20_masked g Address <? ROM_AREA_END)) eqn:Hrom.
  { intros Heq. inversion Heq. now left. }
  destruct (BaseAddress g) as [m |] eqn:Hb; [| discriminate].
  cbv zeta.
  destruct (touches_vga _ _ _); intros Heq; inversion Heq; subst;
    right; exists m; repeat split; assumption.
Qed.

(** The three ways a read returns: nothing done, a plain copy, or a copy
    after the adapter has filled its part of the arena. *)
Lemma EmulatorReadMemory_cases (g g' : globals) Address Buffer Size Buffer' :
  EmulatorReadMemory g Address Buffer Size = Returned (g', Buffer') ->
  (g' = g /\ Buffer' = Buffer) \/
  (exists m,
      BaseAddress g = Some m /\
      ulong (a20_masked g Address + Size) < MAX_ADDRESS /\
      touches_vga g (a20_masked g Address) Size = false /\
      g' = g /\
      Buffer' = load m (a20_masked g Address) Size ++ skipn (Z.to_nat Size) Buffer) \/
  (exists m bytes v,
      BaseAddress g = Some m /\
      ulong (a20_masked g Address + Size) < MAX_ADDRESS /\
      touches_vga g (a20_masked g Address) Size = true /\
      VgaReadMemory (Vga g) (VgaAddress_of g (a20_masked g Address))
                    (ActualSize_of g (a20_masked g Address) Size) = (bytes, v) /\
      g' = log (EvVgaReadMemory (VgaAddress_of g (a20_masked g Address))
                                (ActualSize_of g (a20_masked g Address) Size))
             (with_vga v
                (with_base
                   (Some (store m (VgaAddress_of g (a20_masked g Address)) bytes)) g)) /\
      Buffer' = load (store m (VgaAddress_of g (a20_masked g Address)) bytes)
                     (a20_masked g Address) Size
                ++ skipn (Z.to_nat Size) Buffer).
Proof.
  unfold EmulatorReadMemory.
  destruct (Z.geb_spec (ulong (a20_masked g Address + Size)) MAX_ADDRESS) as [Hge | Hlt].
  { intros Heq. inversion Heq. now left. }
  destruct (BaseAddress g) as [m |] eqn:Hb; [| discriminate].
  destruct (touches_vga g (a20_masked g Address) Size) eqn:Htouch.
  - destruct (VgaReadMemory _ _ _) as [bytes v] eqn:Hdev.
    intros Heq. inversion Heq; subst.
    right. right. exists m, bytes, v. repeat split; assumption.
  - intros Heq. inversion Heq; subst.
    right. left. exists m. repeat split; assumption.
Qed.

(** Where the guard of the video block lets a request through, the range
    handed to the adapter starts inside the request and the block, ends
    inside the request, and ends at most one byte past the limit. *)
Lemma clip_inside_request (g : globals) (a Size : Z) :
  VgaGetVideoBaseAddress (Vga g) <= VgaGetVideoLimitAddress (Vga g) ->
  0 <= a -> 0 < Size -> a + Size < 2 ^ 32 ->
  touches_vga g a Size = true ->
  a <= VgaAddress_of g a /\
  VgaGetVideoBaseAddress (Vga g) <= VgaAddress_of g a /\
  0 <= ActualSize_of g a Size /\
  VgaAddress_of g a + ActualSize_of g a Size <= a + Size /\
  VgaAddress_of g a + ActualSize_of g a Size <= VgaGetVideoLimitAddress (Vga g) + 1.
Proof.
  intros Hsane Ha Hs Hfit Htouch.
  unfold touches_vga in Htouch.
  rewrite ulong_small in Htouch by lia.
  apply andb_true_iff in Htouch. destruct Htouch as [Hge Hlt].
  apply Z.geb_le in Hge. apply Z.ltb_lt in Hlt.
  unfold ActualSize_of, VgaAddress_of.
  rewrite (ulong_small (a + Size - 1)) by lia.
  rewrite ulong_small by lia.
  lia.
Qed.

(** X1.  A write, of a sum that fits 32 bits, changes nothing outside the
    range it was asked to write: whatever the gate, the guards and the
    payload, every byte below the masked address or at or beyond the
    masked address plus the length is afterwards what it was. *)
Theorem write_changes_only_its_range (g g' : globals) Address Buffer Size (x : Z) :
  0 <= a20_masked g Address -> 0 <= Size ->
  a20_masked g Address + Size < 2 ^ 32 ->
  EmulatorWriteMemory g Address Buffer Size = Returned g' ->
  x < a20_masked g Address \/ a20_masked g Address + Size <= x ->
  peek g' x = peek g x.
Proof.
  intros Ha Hs Hfit Hw Hx.
  destruct (EmulatorWriteMemory_cases _ _ _ _ _ Hw) as [-> | (m & Hb & Hb' & _)];
    [reflexivity |].
  unfold peek. rewrite Hb, Hb'. f_equal.
  apply store_outside.
  pose proof (firstn_fits Buffer Size Hs). lia.
Qed.

(** X2.  No write, of a sum that fits 32 bits, changes a byte of the
    read-only block [ROM_AREA_START, ROM_AREA_END). *)
Theorem write_never_changes_rom (g g' : globals) Address Buffer Size (x : Z) :
  0 <= a20_masked g Address -> 0 <= Size ->
  a20_masked g Address + Size < 2 ^ 32 ->
  EmulatorWriteMemory g Address Buffer Size = Returned g' ->
  ROM_AREA_START <= x < ROM_AREA_END ->
  peek g' x = peek g x.
Proof.
  intros Ha Hs Hfit Hw Hx.
  destruct (EmulatorWriteMemory_cases _ _ _ _ _ Hw)
    as [-> | (m & Hb & Hb' & Hin & Hrom)]; [reflexivity |].
  rewrite ulong_small in Hrom by lia.
  unfold peek. rewrite Hb, Hb'. f_equal.
  apply store_outside.
  pose proof (firstn_fits Buffer Size Hs).
  destruct (Z.geb_spec (a20_masked g Address + Size) ROM_AREA_START);
    destruct (Z.ltb_spec (a20_masked g Address) ROM_AREA_END);
    simpl in Hrom; try discriminate; lia.
Qed.

(** X3.  No write, of a sum that fits 32 bits, changes a byte at offset
    [MAX_ADDRESS - 1] or beyond: writes stay inside the arena, and the
    last byte of the arena cannot be written at all. *)
Theorem write_never_reaches_last_byte (g g' : globals) Address Buffer Size (x : Z) :
  0 <= a20_masked g Address -> 0 <= Size ->
  a20_masked g Address + Size < 2 ^ 32 ->
  EmulatorWriteMemory g Address Buffer Size = Returned g' ->
  MAX_ADDRESS - 1 <= x ->
  peek g' x = peek g x.
Proof.
  intros Ha Hs Hfit Hw Hx.
  destruct (EmulatorWriteMemory_cases _ _ _ _ _ Hw)
    as [-> | (m & Hb & Hb' & Hin & _)]; [reflexivity |].
  rewrite ulong_small in Hin by lia.
  unfold peek. rewrite Hb, Hb'. f_equal.
  apply store_outside.
  pose proof (firstn_fits Buffer Size Hs). lia.
Qed.

(** The guard of the video block is closed for a request that ends below
    the base or starts at or after the limit. *)
Lemma away_from_vga (g : globals) (a Size : Z) :
  0 <= a -> 0 <= Size -> a + Size < 2 ^ 32 ->
  a + Size < VgaGetVideoBaseAddress (Vga g) \/ VgaGetVideoLimitAddress (Vga g) <= a ->
  touches_vga g a Size = false.
Proof.
  intros Ha Hs Hfit Haway. unfold touches_vga.
  rewrite ulong_small by lia.
  destruct (Z.geb_spec (a + Size) (VgaGetVideoBaseAddress (Vga g)));
    destruct (Z.ltb_spec a (VgaGetVideoLimitAddress (Vga g)));
    simpl; try reflexivity; lia.
Qed.

(** C4, at the access the code gets wrong.  The callbacks count the
    adapter's limit as a byte of the video block (the length they forward
    is [min(Address + Size - 1, limit) - VgaAddress + 1]) but their guard
    is [Address < limit]: a request that starts at the limit, the last
    byte of the block, is not taken for one that meets the block.  The
    read makes no call to the adapter and hands out the arena bytes as
    they are; the write puts its payload in the arena and tells the
    adapter nothing. *)
Theorem C4_access_at_limit_skips_adapter (g : globals) (m : memory)
    Address Buffer Size :
  BaseAddress g = Some m ->
  MAX_ADDRESS <= 2 ^ 32 ->
  VgaGetVideoBaseAddress (Vga g) <= a20_masked g Address ->
  a20_masked g Address = VgaGetVideoLimitAddress (Vga g) ->
  0 <= a20_masked g Address -> 0 < Size ->
  a20_masked g Address + Size < MAX_ADDRESS ->
  a20_masked g Address + Size < ROM_AREA_START \/ ROM_AREA_END <= a20_masked g Address ->
  List.length Buffer = Z.to_nat Size ->
  EmulatorReadMemory g Address Buffer Size
    = Returned (g, load m (a20_masked g Address) Size ++ skipn (Z.to_nat Size) Buffer) /\
  EmulatorWriteMemory g Address Buffer Size
    = Returned (with_base (Some (store m (a20_masked g Address) Buffer)) g) /\
  Trace (with_base (Some (store m (a20_masked g Address) Buffer)) g) = Trace g /\
  Vga (with_base (Some (store m (a20_masked g Address) Buffer)) g) = Vga g.
Proof.
  intros Hb Hmax Hbase Hlimit Ha Hs Hin Hrom Hlen.
  assert (Htouch : touches_vga g (a20_masked g Address) Size = false)
    by (apply away_from_vga; lia).
  split; [| split; [| split; reflexivity]].
  - unfold EmulatorReadMemory.
    rewrite ulong_small by lia.
    destruct (Z.geb_spec (a20_masked g Address + Size) MAX_ADDRESS); [lia |].
    rewrite Hb, Htouch. reflexivity.
  - unfold EmulatorWriteMemory.
    rewrite ulong_small by lia.
    destruct (Z.geb_spec (a20_masked g Address + Size) MAX_ADDRESS); [lia |].
    assert (Hguard : (a20_masked g Address + Size >=? ROM_AREA_START)
                     && (a20_masked g Address <? ROM_AREA_END) = false).
    { destruct (Z.geb_spec (a20_masked g Address + Size) ROM_AREA_START);
        destruct (Z.ltb_spec (a20_masked g Address) ROM_AREA_END);
        simpl; try reflexivity; lia. }
    rewrite Hguard, Hb, (firstn_full _ _ Hlen). cbv zeta.
    change (touches_vga (with_base ?b g) ?a ?n) with (touches_vga g a n).
    rewrite Htouch. reflexivity.
Qed.

(** X4.  Plain memory keeps what is written to it: a write that is in
    bounds and clear of the tests for the read-only block and for the
    video block, followed by a read of the same range, hands back the
    payload; neither call reaches the adapter, and the read leaves the
    machine as the write left it. *)
Theorem ram_write_then_read (g : globals) (m : memory) Address Buffer Buffer2 Size :
  BaseAddress g = Some m ->
  MAX_ADDRESS <= 2 ^ 32 ->
  0 <= a20_masked g Address -> 0 <= Size ->
  a20_masked g Address + Size < MAX_ADDRESS ->
  a20_masked g Address + Size < ROM_AREA_START \/ ROM_AREA_END <= a20_masked g Address ->
  a20_masked g Address + Size < VgaGetVideoBaseAddress (Vga g)
    \/ VgaGetVideoLimitAddress (Vga g) <= a20_masked g Address ->
  List.length Buffer = Z.to_nat Size ->
  exists g1,
    EmulatorWriteMemory g Address Buffer Size = Returned g1 /\
    Trace g1 = Trace g /\ Vga g1 = Vga g /\
    EmulatorReadMemory g1 Address Buffer2 Size
      = Returned (g1, Buffer ++ skipn (Z.to_nat Size) Buffer2).
Proof.
  intros Hb Hmax Ha Hs Hin Hrom Haway Hlen.
  assert (Htouch : touches_vga g (a20_masked g Address) Size = false)
    by (apply away_from_vga; lia).
  exists (with_base (Some (store m (a20_masked g Address) Buffer)) g).
  split.
  { unfold EmulatorWriteMemory.
    rewrite ulong_small by lia.
    destruct (Z.geb_spec (a20_masked g Address + Size) MAX_ADDRESS); [lia |].
    assert (Hguard : (a20_masked g Address + Size >=? ROM_AREA_START)
                     && (a20_masked g Address <? ROM_AREA_END) = false).
    { destruct (Z.geb_spec (a20_masked g Address + Size) ROM_AREA_START);
        destruct (Z.ltb_spec (a20_masked g Address) ROM_AREA_END);
        simpl; try reflexivity; lia. }
    rewrite Hguard, Hb, (firstn_full _ _ Hlen). cbv zeta.
    change (touches_vga (with_base ?b g) ?a ?n) with (touches_vga g a n).
    rewrite Htouch. reflexivity. }
  split; [reflexivity |]. split; [reflexivity |].
  unfold EmulatorReadMemory.
  change (a20_masked (with_base ?b g) Address) with (a20_masked g Address).
  rewrite ulong_small by lia.
  destruct (Z.geb_spec (a20_masked g Address + Size) MAX_ADDRESS); [lia |].
  cbn [BaseAddress with_base].
  change (touches_vga (with_base ?b g) ?a ?n) with (touches_vga g a n).
  rewrite Htouch, (load_store_same _ _ _ _ Hlen). reflexivity.
Qed.

(** X5.  A read touches only what it was asked for.  With an adapter whose
    base is not above its limit and a non-empty request whose sum fits 32
    bits, every arena byte outside the requested range is afterwards what
    it was (the adapter only fills bytes inside the request), and the
    caller's buffer is unchanged from position [Size] on. *)
Theorem read_touches_only_its_range (g g' : globals) Address Buffer Size Buffer' :
  VgaGetVideoBaseAddress (Vga g) <= VgaGetVideoLimitAddress (Vga g) ->
  0 <= a20_masked g Address -> 0 < Size ->
  a20_masked g Address + Size < 2 ^ 32 ->
  EmulatorReadMemory g Address Buffer Size = Returned (g', Buffer') ->
  (forall x, x < a20_masked g Address \/ a20_masked g Address + Size <= x ->
             peek g' x = peek g x) /\
  skipn (Z.to_nat Size) Buffer' = skipn (Z.to_nat Size) Buffer.
Proof.
  intros Hsane Ha Hs Hfit Hr.
  destruct (EmulatorReadMemory_cases _ _ _ _ _ _ Hr)
    as [[-> ->] | [(m & Hb & _ & _ & -> & ->)
                  | (m & bytes & v & Hb & _ & Htouch & Hdev & -> & ->)]].
  - split; reflexivity.
  - split; [reflexivity | apply skipn_load_app].
  - split; [| apply skipn_load_app].
    intros x Hx. unfold peek. rewrite Hb. cbn [BaseAddress log with_vga with_base].
    f_equal. apply store_outside.
    pose proof (clip_inside_request g _ Size Hsane Ha Hs Hfit Htouch)
      as (Hlo & _ & Hn & Hend & _).
    pose proof (VgaReadMemory_fills (Vga g)
                  (VgaAddress_of g (a20_masked g Address))
                  (ActualSize_of g (a20_masked g Address) Size)) as Hlen.
    rewrite Hdev in Hlen. simpl in Hlen. rewrite Hlen. lia.
Qed.

(** X6.  Each access calls the adapter at most once, and only for bytes of
    the request.  With an adapter whose base is not above its limit and a
    non-empty request whose sum fits 32 bits, a write that returns either
    adds nothing to the trace or adds one call of the adapter's write
    entry point, for a range that starts at or after the base, lies
    inside the request and ends at most one byte past the limit. *)
Theorem write_forwards_inside_request (g g' : globals) Address Buffer Size :
  VgaGetVideoBaseAddress (Vga g) <= VgaGetVideoLimitAddress (Vga g) ->
  0 <= a20_masked g Address -> 0 < Size ->
  a20_masked g Address + Size < 2 ^ 32 ->
  EmulatorWriteMemory g Address Buffer Size = Returned g' ->
  Trace g' = Trace g \/
  exists lo bytes n,
    Trace g' = Trace g ++ [EvVgaWriteMemory lo bytes n] /\
    List.length bytes = Z.to_nat n /\
    a20_masked g Address <= lo /\
    VgaGetVideoBaseAddress (Vga g) <= lo /\
    0 <= n /\
    lo + n <= a20_masked g Address + Size /\
    lo + n <= VgaGetVideoLimitAddress (Vga g) + 1.
Proof.
  intros Hsane Ha Hs Hfit.
  unfold EmulatorWriteMemory.
  destruct (ulong (a20_masked g Address + Size) >=? MAX_ADDRESS);
    [intros Heq; inversion Heq; now left |].
  destruct ((ulong (a20_masked g Address + Size) >=? ROM_AREA_START)
            && (a20_masked g Address <? ROM_AREA_END));
    [intros Heq; inversion Heq; now left |].
  destruct (BaseAddress g) as [m |]; [| discriminate].
  cbv zeta.
  change (touches_vga (with_base ?b g) ?a ?n) with (touches_vga g a n).
  destruct (touches_vga g (a20_masked g Address) Size) eqn:Htouch;
    intros Heq; inversion Heq; subst; [| now left].
  right.
  pose proof (clip_inside_request g _ Size Hsane Ha Hs Hfit Htouch)
    as (Hlo & Hbase & Hn & Hend & Hlim).
  eexists. eexists. eexists.
  split; [reflexivity |].
  split; [apply load_length |].
  repeat split; assumption.
Qed.

(** X7.  Away from the video block a read is a plain copy: when the request
    is in bounds and ends below the adapter's base or starts at or after
    its limit, the machine is returned exactly as it was (no adapter call,
    no arena byte changed) and the first [Size] bytes of the buffer are
    the arena bytes of the range. *)
Theorem read_away_from_vga_is_pure (g : globals) (m : memory) Address Buffer Size :
  BaseAddress g = Some m ->
  MAX_ADDRESS <= 2 ^ 32 ->
  0 <= a20_masked g Address -> 0 <= Size ->
  a20_masked g Address + Size < MAX_ADDRESS ->
  a20_masked g Address + Size < VgaGetVideoBaseAddress (Vga g)
    \/ VgaGetVideoLimitAddress (Vga g) <= a20_masked g Address ->
  EmulatorReadMemory g Address Buffer Size
  = Returned (g, load m (a20_masked g Address) Size ++ skipn (Z.to_nat Size) Buffer).
Proof.
  intros Hb Hmax Ha Hs Hin Haway.
  unfold EmulatorReadMemory.
  rewrite ulong_small by lia.
  destruct (Z.geb_spec (a20_masked g Address + Size) MAX_ADDRESS); [lia |].
  rewrite Hb, away_from_vga by lia. reflexivity.
Qed.

End MemoryBounds.

(* ================================================================== *)
(** ** Further properties of the control entry points *)

Section Lifecycle.

Context {H : emulator_h}.
Context {V P C : Type} {VGA : VgaDevice V} {PIC : PicDevice P} {CPU : Fast486 C}.

Local Abbreviation globals := (globals V P C).

Lemma steps_executed_log (e : event) (g : globals) :
  steps_executed (log e g)
  = (steps_executed g + if is_step_into e then 1 else 0)%nat.
Proof.
  unfold steps_executed, log. simpl.
  rewrite filter_app, length_app. simpl.
  destruct (is_step_into e); simpl; lia.
Qed.

Lemma heap_frees_log (e : event) (g : globals) :
  heap_frees (log e g) = (heap_frees g + if is_heap_free e then 1 else 0)%nat.
Proof.
  unfold heap_frees, log. simpl.
  rewrite filter_app, length_app. simpl.
  destruct (is_heap_free e); simpl; lia.
Qed.

Lemma EmulatorCleanup_spec (g : globals) :
  BaseAddress (EmulatorCleanup g) = BaseAddress g /\
  VdmRunning (EmulatorCleanup g) = VdmRunning g /\
  heap_frees (EmulatorCleanup g)
  = (heap_frees g + match BaseAddress g with Some _ => 1 | None => 0 end)%nat /\
  steps_executed (EmulatorCleanup g) = steps_executed g.
Proof.
  unfold EmulatorCleanup. cbn [BaseAddress log].
  destruct (BaseAddress g) eqn:Hb;
    rewrite ?heap_frees_log, ?steps_executed_log; cbn [BaseAddress VdmRunning log];
    simpl; repeat split; try assumption; lia.
Qed.

(** X9.  When [HeapAlloc] gives NULL, [EmulatorInitialize] returns FALSE
    having initialised nothing: the engine, the interrupt controller and
    the video adapter are as they were, [BaseAddress] is NULL, and the
    only calls made are [HeapAlloc] and the [wprintf] of the error. *)
Theorem initialize_failure_initialises_nothing (hp : heap) ci co (g : globals) :
  HeapAlloc hp HEAP_ZERO_MEMORY MAX_ADDRESS = None ->
  snd (EmulatorInitialize hp ci co g) = false /\
  BaseAddress (fst (EmulatorInitialize hp ci co g)) = None /\
  EmulatorContext (fst (EmulatorInitialize hp ci co g)) = EmulatorContext g /\
  Pic (fst (EmulatorInitialize hp ci co g)) = Pic g /\
  Vga (fst (EmulatorInitialize hp ci co g)) = Vga g /\
  exists message,
    Trace (fst (EmulatorInitialize hp ci co g))
    = Trace g ++ [EvHeapAlloc HEAP_ZERO_MEMORY MAX_ADDRESS; EvWprintf message].
Proof.
  intros Hnull. unfold EmulatorInitialize.
  cbn [BaseAddress log with_base]. rewrite Hnull. simpl.
  repeat split.
  eexists. rewrite <- app_assoc. reflexivity.
Qed.

(** X10.  [EmulatorCleanup] calls [HeapFree] when [BaseAddress] is not NULL
    and leaves [BaseAddress] as it is.  So [n] calls in a row on a
    machine with an arena issue [n] calls of [HeapFree], and on a machine
    without one they issue none. *)
Theorem cleanup_frees_on_every_call (n : nat) (g : globals) :
  exists g',
    run (repeat OpCleanup n) g = Returned g' /\
    BaseAddress g' = BaseAddress g /\
    heap_frees g' = (heap_frees g + match BaseAddress g with Some _ => n | None => 0 end)%nat.
Proof.
  revert g. induction n as [| n IH]; intros g; simpl.
  - exists g. repeat split. destruct (BaseAddress g); lia.
  - destruct (IH (EmulatorCleanup g)) as (g' & Hrun & Hb & Hf).
    destruct (EmulatorCleanup_spec g) as (Hb1 & _ & Hf1 & _).
    exists g'. split; [exact Hrun |].
    split; [congruence |].
    rewrite Hf, Hf1, Hb1. destruct (BaseAddress g); lia.
Qed.

(** X11.  [VDDTerminateVDM] stops the machine without a report: it sets
    [VdmRunning] to FALSE and changes nothing else, the trace included;
    whatever is called after it, [VdmRunning] stays FALSE. *)
Theorem terminate_halts_silently_for_good (g : globals) :
  VDDTerminateVDM g
  = mkGlobals (EmulatorContext g) (BaseAddress g) false (A20Line g)
              (Vga g) (Pic g) (Trace g) /\
  forall ops g', run (OpTerminateVDM :: ops) g = Returned g' ->
                 VdmRunning g' = false.
Proof.
  split; [reflexivity |].
  intros ops g' Hrun. simpl in Hrun.
  eapply run_halted; [| exact Hrun]. reflexivity.
Qed.

(** X12.  [EmulatorInitialize] does not start a halted machine again: it
    assigns neither [VdmRunning] nor [A20Line].  Once [VdmRunning] is
    FALSE, after any further calls and a new initialisation, successful
    or not, it is still FALSE, and the gate is as the calls left it. *)
Theorem initialize_does_not_restart (hp : heap) ci co (g g1 : globals)
    (ops : list operation) :
  VdmRunning g = false ->
  run ops g = Returned g1 ->
  VdmRunning (fst (EmulatorInitialize hp ci co g1)) = false /\
  A20Line (fst (EmulatorInitialize hp ci co g1)) = A20Line g1.
Proof.
  intros Hhalt Hrun.
  destruct (EmulatorInitialize_flags hp ci co g1) as [Ha Hr].
  split; [| exact Ha].
  rewrite Hr. eapply run_halted; eassumption.
Qed.

Lemma run_op_steps (o : operation) (g g' : globals) :
  run_op o g = Returned g' ->
  steps_executed g' = (steps_executed g + if is_step_op o then 1 else 0)%nat.
Proof.
  destruct o; simpl; intros Hrun.
  - destruct (EmulatorReadMemory g Address Buffer Size) as [[g1 b1] | |] eqn:Hr;
      simpl in Hrun; try discriminate.
    inversion Hrun; subst.
    apply EmulatorReadMemory_frame in Hr. unfold callback_frame in Hr.
    unfold steps_executed. simpl.
    destruct Hr as (_ & _ & _ & _ & _ & ->). lia.
  - apply EmulatorWriteMemory_frame in Hrun. unfold callback_frame in Hrun.
    unfold steps_executed. destruct Hrun as (_ & _ & _ & _ & _ & ->). lia.
  - inversion Hrun; subst.
    pose proof (EmulatorIntAcknowledge_frame g) as (_ & _ & _ & Hs).
    unfold steps_executed. rewrite Hs. lia.
  - inversion Hrun; subst. unfold EmulatorDebugBreak.
    rewrite !steps_executed_log. simpl. lia.
  - inversion Hrun; subst.
    destruct (EmulatorCleanup_spec g) as (_ & _ & _ & ->). lia.
  - unfold EmulatorException in Hrun.
    destruct (ASSERT_enabled && negb (ExceptionNumber <? 8)); [discriminate |].
    destruct (nth_error ExceptionName (Z.to_nat ExceptionNumber));
      destruct (BaseAddress g); try discriminate.
    inversion Hrun; subst.
    change (steps_executed (with_running false ?x)) with (steps_executed x).
    rewrite steps_executed_log. simpl. lia.
  - inversion Hrun; subst. unfold EmulatorExecute.
    rewrite steps_executed_log. simpl.
    change (steps_executed (with_context ?c g)) with (steps_executed g). lia.
  - inversion Hrun; subst. unfold EmulatorInterrupt.
    rewrite steps_executed_log. simpl.
    change (steps_executed (with_context ?c g)) with (steps_executed g). lia.
  - inversion Hrun; subst. unfold EmulatorInterruptSignal.
    rewrite steps_executed_log. simpl.
    change (steps_executed (with_context ?c g)) with (steps_executed g). lia.
  - apply EmulatorStep_spec in Hrun. lia.
  - inversion Hrun; subst. reflexivity || (unfold steps_executed; simpl; lia).
  - inversion Hrun; subst. unfold steps_executed; simpl; lia.
Qed.

(** X13.  One instruction per [EmulatorStep], and none otherwise: after any
    sequence of calls that returns, the number of [Fast486StepInto] calls
    made is the number of [EmulatorStep] calls in the sequence, whether
    the machine was running or halted at the time. *)
Theorem run_counts_steps (ops : list operation) :
  forall g g' : globals,
    run ops g = Returned g' ->
    steps_executed g'
    = (steps_executed g + List.length (filter is_step_op ops))%nat.
Proof.
  induction ops as [| o ops IH]; intros g g' Hrun; simpl in Hrun.
  - inversion Hrun; subst. simpl. lia.
  - destruct (run_op o g) as [g1 | |] eqn:Ho; simpl in Hrun; try discriminate.
    rewrite (IH _ _ Hrun), (run_op_steps _ _ _ Ho). simpl.
    destruct (is_step_op o); simpl; lia.
Qed.

End Lifecycle.

(* ================================================================== *)
(** ** Further runs of the concrete machine *)

(** X1 at a two-byte write at 0x700, seen from 0x600. *)
Lemma write_changes_only_its_range_witness :
  let g := patterned_machine false in
  let g' := returned_or g
              (EmulatorWriteMemory (H := scenario_h false) g 0x700 [x01; x02] 2) in
  0 <= a20_masked g 0x700 /\ 0 <= 2 /\
  a20_masked g 0x700 + 2 < 2 ^ 32 /\
  EmulatorWriteMemory (H := scenario_h false) g 0x700 [x01; x02] 2 = Returned g' /\
  (0x600 < a20_masked g 0x700 \/ a20_masked g 0x700 + 2 <= 0x600) /\
  peek g' 0x600 = peek g 0x600.
Proof.
  cbv zeta.
  assert (Ha : 0 <= a20_masked (patterned_machine false) 0x700) by by_running.
  assert (Hs : 0 <= 2) by lia.
  assert (Hfit : a20_masked (patterned_machine false) 0x700 + 2 < 2 ^ 32)
    by by_running.
  assert (Hw : EmulatorWriteMemory (H := scenario_h false) (patterned_machine false)
                 0x700 [x01; x02] 2
               = Returned (returned_or (patterned_machine false)
                             (EmulatorWriteMemory (H := scenario_h false)
                                (patterned_machine false) 0x700 [x01; x02] 2)))
    by (vm_compute; reflexivity).
  assert (Hx : 0x600 < a20_masked (patterned_machine false) 0x700
               \/ a20_masked (patterned_machine false) 0x700 + 2 <= 0x600)
    by (left; by_running).
  split; [exact Ha |]. split; [exact Hs |]. split; [exact Hfit |].
  split; [exact Hw |]. split; [exact Hx |].
  exact (write_changes_only_its_range (H := scenario_h false) _ _ _ _ _ _
           Ha Hs Hfit Hw Hx).
Defined.

(** X2 at a four-byte write that starts two bytes below the read-only
    block, seen from 0xF0000. *)
Lemma write_never_changes_rom_witness :
  let g := patterned_machine false in
  let g' := returned_or g
              (EmulatorWriteMemory (H := scenario_h false) g 0xEFFFE
                 [x01; x02; x03; x04] 4) in
  0 <= a20_masked g 0xEFFFE /\ 0 <= 4 /\
  a20_masked g 0xEFFFE + 4 < 2 ^ 32 /\
  EmulatorWriteMemory (H := scenario_h false) g 0xEFFFE [x01; x02; x03; x04] 4
    = Returned g' /\
  ROM_AREA_START (emulator_h := scenario_h false) <= 0xF0000
    < ROM_AREA_END (emulator_h := scenario_h false) /\
  peek g' 0xF0000 = peek g 0xF0000.
Proof.
  cbv zeta.
  assert (Ha : 0 <= a20_masked (patterned_machine false) 0xEFFFE) by by_running.
  assert (Hs : 0 <= 4) by lia.
  assert (Hfit : a20_masked (patterned_machine false) 0xEFFFE + 4 < 2 ^ 32)
    by by_running.
  assert (Hw : EmulatorWriteMemory (H := scenario_h false) (patterned_machine false)
                 0xEFFFE [x01; x02; x03; x04] 4
               = Returned (returned_or (patterned_machine false)
                             (EmulatorWriteMemory (H := scenario_h false)
                                (patterned_machine false) 0xEFFFE
                                [x01; x02; x03; x04] 4)))
    by (vm_compute; reflexivity).
  assert (Hx : ROM_AREA_START (emulator_h := scenario_h false) <= 0xF0000
               < ROM_AREA_END (emulator_h := scenario_h false)) by by_running.
  split; [exact Ha |].
  split; [exact Hs |].
  split; [exact Hfit |].
  split; [exact Hw |].
  split; [exact Hx |].
  exact (write_never_changes_rom (H := scenario_h false) _ _ _ _ _ _ Ha Hs Hfit Hw Hx).
Defined.

(** X3 at a two-byte write at 0xFFFFE with the gate enabled, seen from
    0xFFFFF, the last byte of the arena. *)
Lemma write_never_reaches_last_byte_witness :
  let g := open_gate_machine in
  let g' := returned_or g
              (EmulatorWriteMemory (H := scenario_h false) g 0xFFFFE [x01; x02] 2) in
  0 <= a20_masked g 0xFFFFE /\ 0 <= 2 /\
  a20_masked g 0xFFFFE + 2 < 2 ^ 32 /\
  EmulatorWriteMemory (H := scenario_h false) g 0xFFFFE [x01; x02] 2 = Returned g' /\
  MAX_ADDRESS (emulator_h := scenario_h false) - 1 <= 0xFFFFF /\
  peek g' 0xFFFFF = peek g 0xFFFFF.
Proof.
  cbv zeta.
  assert (Ha : 0 <= a20_masked open_gate_machine 0xFFFFE) by by_running.
  assert (Hs : 0 <= 2) by lia.
  assert (Hfit : a20_masked open_gate_machine 0xFFFFE + 2 < 2 ^ 32) by by_running.
  assert (Hw : EmulatorWriteMemory (H := scenario_h false) open_gate_machine
                 0xFFFFE [x01; x02] 2
               = Returned (returned_or open_gate_machine
                             (EmulatorWriteMemory (H := scenario_h false)
                                open_gate_machine 0xFFFFE [x01; x02] 2)))
    by (vm_compute; reflexivity).
  assert (Hx : MAX_ADDRESS (emulator_h := scenario_h false) - 1 <= 0xFFFFF)
    by by_running.
  split; [exact Ha |].
  split; [exact Hs |].
  split; [exact Hfit |].
  split; [exact Hw |].
  split; [exact Hx |].
  exact (write_never_reaches_last_byte (H := scenario_h false) _ _ _ _ _ _
           Ha Hs Hfit Hw Hx).
Defined.

(** X4 at two bytes written at 0x700 and read back. *)
Lemma ram_write_then_read_witness :
  let g := patterned_machine false in
  BaseAddress g = Some patterned_arena /\
  MAX_ADDRESS (emulator_h := scenario_h false) <= 2 ^ 32 /\
  0 <= a20_masked g 0x700 /\ 0 <= 2 /\
  a20_masked g 0x700 + 2 < MAX_ADDRESS (emulator_h := scenario_h false) /\
  (a20_masked g 0x700 + 2 < ROM_AREA_START (emulator_h := scenario_h false)
   \/ ROM_AREA_END (emulator_h := scenario_h false) <= a20_masked g 0x700) /\
  (a20_masked g 0x700 + 2 < VgaGetVideoBaseAddress (Vga g)
   \/ VgaGetVideoLimitAddress (Vga g) <= a20_masked g 0x700) /\
  List.length [x01; x02] = Z.to_nat 2 /\
  exists g1,
    EmulatorWriteMemory (H := scenario_h false) g 0x700 [x01; x02] 2 = Returned g1 /\
    Trace g1 = Trace g /\ Vga g1 = Vga g /\
    EmulatorReadMemory (H := scenario_h false) g1 0x700 [xff; xff; xff] 2
      = Returned (g1, [x01; x02] ++ skipn (Z.to_nat 2) [xff; xff; xff]).
Proof.
  cbv zeta.
  assert (Hb : BaseAddress (patterned_machine false) = Some patterned_arena)
    by reflexivity.
  assert (Hmax : MAX_ADDRESS (emulator_h := scenario_h false) <= 2 ^ 32) by by_running.
  assert (Ha : 0 <= a20_masked (patterned_machine false) 0x700) by by_running.
  assert (Hs : 0 <= 2) by lia.
  assert (Hin : a20_masked (patterned_machine false) 0x700 + 2
                < MAX_ADDRESS (emulator_h := scenario_h false)) by by_running.
  assert (Hrom : a20_masked (patterned_machine false) 0x700 + 2
                 < ROM_AREA_START (emulator_h := scenario_h false)
                 \/ ROM_AREA_END (emulator_h := scenario_h false)
                    <= a20_masked (patterned_machine false) 0x700)
    by (left; by_running).
  assert (Haway : a20_masked (patterned_machine false) 0x700 + 2
                  < VgaGetVideoBaseAddress (Vga (patterned_machine false))
                  \/ VgaGetVideoLimitAddress (Vga (patterned_machine false))
                     <= a20_masked (patterned_machine false) 0x700)
    by (left; by_running).
  assert (Hlen : List.length [x01; x02] = Z.to_nat 2) by reflexivity.
  split; [exact Hb |].
  split; [exact Hmax |].
  split; [exact Ha |].
  split; [exact Hs |].
  split; [exact Hin |].
  split; [exact Hrom |].
  split; [exact Haway |].
  split; [exact Hlen |].
  exact (ram_write_then_read (H := scenario_h false) _ _ 0x700 [x01; x02]
           [xff; xff; xff] 2 Hb Hmax Ha Hs Hin Hrom Haway Hlen).
Defined.

(** X5 at a three-byte read that runs from 0x9FFFF into the video block. *)
Lemma read_touches_only_its_range_witness :
  let g := patterned_machine false in
  let r := returned_or (g, [xff; xff; xff; xff])
             (EmulatorReadMemory (H := scenario_h false) g 0x9FFFF
                [xff; xff; xff; xff] 3) in
  VgaGetVideoBaseAddress (Vga g) <= VgaGetVideoLimitAddress (Vga g) /\
  0 <= a20_masked g 0x9FFFF /\ 0 < 3 /\
  a20_masked g 0x9FFFF + 3 < 2 ^ 32 /\
  EmulatorReadMemory (H := scenario_h false) g 0x9FFFF [xff; xff; xff; xff] 3
    = Returned (fst r, snd r) /\
  (forall x, x < a20_masked g 0x9FFFF \/ a20_masked g 0x9FFFF + 3 <= x ->
             peek (fst r) x = peek g x) /\
  skipn (Z.to_nat 3) (snd r) = skipn (Z.to_nat 3) [xff; xff; xff; xff].
Proof.
  cbv zeta.
  assert (Hsane : VgaGetVideoBaseAddress (Vga (patterned_machine false))
                  <= VgaGetVideoLimitAddress (Vga (patterned_machine false)))
    by by_running.
  assert (Ha : 0 <= a20_masked (patterned_machine false) 0x9FFFF) by by_running.
  assert (Hs : 0 < 3) by lia.
  assert (Hfit : a20_masked (patterned_machine false) 0x9FFFF + 3 < 2 ^ 32)
    by by_running.
  assert (Hr : EmulatorReadMemory (H := scenario_h false) (patterned_machine false)
                 0x9FFFF [xff; xff; xff; xff] 3
               = Returned
                   (fst (returned_or (patterned_machine false, [xff; xff; xff; xff])
                           (EmulatorReadMemory (H := scenario_h false)
                              (patterned_machine false) 0x9FFFF
                              [xff; xff; xff; xff] 3)),
                    snd (returned_or (patterned_machine false, [xff; xff; xff; xff])
                           (EmulatorReadMemory (H := scenario_h false)
                              (patterned_machine false) 0x9FFFF
                              [xff; xff; xff; xff] 3))))
    by (vm_compute; reflexivity).
  split; [exact Hsane |].
  split; [exact Ha |].
  split; [exact Hs |].
  split; [exact Hfit |].
  split; [exact Hr |].
  exact (read_touches_only_its_range (H := scenario_h false) _ _ _ _ _ _
           Hsane Ha Hs Hfit Hr).
Defined.

(** X6 at the four-byte write at 0xB7FFE. *)
Lemma write_forwards_inside_request_witness :
  let g := patterned_machine false in
  let g' := returned_or g
              (EmulatorWriteMemory (H := scenario_h false) g 0xB7FFE
                 [x01; x02; x03; x04] 4) in
  VgaGetVideoBaseAddress (Vga g) <= VgaGetVideoLimitAddress (Vga g) /\
  0 <= a20_masked g 0xB7FFE /\ 0 < 4 /\
  a20_masked g 0xB7FFE + 4 < 2 ^ 32 /\
  EmulatorWriteMemory (H := scenario_h false) g 0xB7FFE [x01; x02; x03; x04] 4
    = Returned g' /\
  (Trace g' = Trace g \/
   exists lo bytes n,
     Trace g' = Trace g ++ [EvVgaWriteMemory lo bytes n] /\
     List.length bytes = Z.to_nat n /\
     a20_masked g 0xB7FFE <= lo /\
     VgaGetVideoBaseAddress (Vga g) <= lo /\
     0 <= n /\
     lo + n <= a20_masked g 0xB7FFE + 4 /\
     lo + n <= VgaGetVideoLimitAddress (Vga g) + 1).
Proof.
  cbv zeta.
  assert (Hsane : VgaGetVideoBaseAddress (Vga (patterned_machine false))
                  <= VgaGetVideoLimitAddress (Vga (patterned_machine false)))
    by by_running.
  assert (Ha : 0 <= a20_masked (patterned_machine false) 0xB7FFE) by by_running.
  assert (Hs : 0 < 4) by lia.
  assert (Hfit : a20_masked (patterned_machine false) 0xB7FFE + 4 < 2 ^ 32)
    by by_running.
  assert (Hw : EmulatorWriteMemory (H := scenario_h false) (patterned_machine false)
                 0xB7FFE [x01; x02; x03; x04] 4
               = Returned (returned_or (patterned_machine false)
                             (EmulatorWriteMemory (H := scenario_h false)
                                (patterned_machine false) 0xB7FFE
                                [x01; x02; x03; x04] 4)))
    by (vm_compute; reflexivity).
  split; [exact Hsane |].
  split; [exact Ha |].
  split; [exact Hs |].
  split; [exact Hfit |].
  split; [exact Hw |].
  exact (write_forwards_inside_request (H := scenario_h false) _ _ _ _ _
           Hsane Ha Hs Hfit Hw).
Defined.

(** X7 at the four patterned bytes at 0x600. *)
Lemma read_away_from_vga_is_pure_witness :
  let g := patterned_machine false in
  BaseAddress g = Some patterned_arena /\
  MAX_ADDRESS (emulator_h := scenario_h false) <= 2 ^ 32 /\
  0 <= a20_masked g 0x600 /\ 0 <= 4 /\
  a20_masked g 0x600 + 4 < MAX_ADDRESS (emulator_h := scenario_h false) /\
  (a20_masked g 0x600 + 4 < VgaGetVideoBaseAddress (Vga g)
   \/ VgaGetVideoLimitAddress (Vga g) <= a20_masked g 0x600) /\
  EmulatorReadMemory (H := scenario_h false) g 0x600 [xff; xff; xff; xff; xff] 4
  = Returned (g, load patterned_arena (a20_masked g 0x600) 4
                 ++ skipn (Z.to_nat 4) [xff; xff; xff; xff; xff]).
Proof.
  cbv zeta.
  assert (Hb : BaseAddress (patterned_machine false) = Some patterned_arena)
    by reflexivity.
  assert (Hmax : MAX_ADDRESS (emulator_h := scenario_h false) <= 2 ^ 32) by by_running.
  assert (Ha : 0 <= a20_masked (patterned_machine false) 0x600) by by_running.
  assert (Hs : 0 <= 4) by lia.
  assert (Hin : a20_masked (patterned_machine false) 0x600 + 4
                < MAX_ADDRESS (emulator_h := scenario_h false)) by by_running.
  assert (Haway : a20_masked (patterned_machine false) 0x600 + 4
                  < VgaGetVideoBaseAddress (Vga (patterned_machine false))
                  \/ VgaGetVideoLimitAddress (Vga (patterned_machine false))
                     <= a20_masked (patterned_machine false) 0x600)
    by (left; by_running).
  split; [exact Hb |].
  split; [exact Hmax |].
  split; [exact Ha |].
  split; [exact Hs |].
  split; [exact Hin |].
  split; [exact Haway |].
  exact (read_away_from_vga_is_pure (H := scenario_h false) _ _ 0x600
           [xff; xff; xff; xff; xff] 4 Hb Hmax Ha Hs Hin Haway).
Defined.

(** X9 with a heap that has no room for the arena. *)
Lemma initialize_failure_initialises_nothing_witness :
  let g := globals_at_load (V := plane_vga) (P := list byte) 0 scenario_vga [x08] in
  HeapAlloc full_heap HEAP_ZERO_MEMORY (MAX_ADDRESS (emulator_h := scenario_h false))
    = None /\
  snd (EmulatorInitialize (H := scenario_h false) full_heap 3 7 g) = false /\
  BaseAddress (fst (EmulatorInitialize (H := scenario_h false) full_heap 3 7 g)) = None /\
  EmulatorContext (fst (EmulatorInitialize (H := scenario_h false) full_heap 3 7 g))
    = EmulatorContext g /\
  Pic (fst (EmulatorInitialize (H := scenario_h false) full_heap 3 7 g)) = Pic g /\
  Vga (fst (EmulatorInitialize (H := scenario_h false) full_heap 3 7 g)) = Vga g /\
  exists message,
    Trace (fst (EmulatorInitialize (H := scenario_h false) full_heap 3 7 g))
    = Trace g ++ [EvHeapAlloc HEAP_ZERO_MEMORY
                    (MAX_ADDRESS (emulator_h := scenario_h false));
                  EvWprintf message].
Proof.
  cbv zeta.
  assert (Hnull : HeapAlloc full_heap HEAP_ZERO_MEMORY
                    (MAX_ADDRESS (emulator_h := scenario_h false)) = None)
    by reflexivity.
  split; [exact Hnull |].
  exact (initialize_failure_initialises_nothing (H := scenario_h false)
           full_heap 3 7 (globals_at_load 0 scenario_vga [x08]) Hnull).
Defined.

(** X11 at a step made after the termination. *)
Lemma terminate_halts_silently_for_good_witness :
  let g := patterned_machine false in
  let g' := returned_or g
              (run (H := scenario_h false) [OpTerminateVDM; OpStep] g) in
  run (H := scenario_h false) [OpTerminateVDM; OpStep] g = Returned g' /\
  VdmRunning g' = false.
Proof.
  cbv zeta.
  assert (Hrun : run (H := scenario_h false) [OpTerminateVDM; OpStep]
                   (patterned_machine false)
                 = Returned (returned_or (patterned_machine false)
                               (run (H := scenario_h false) [OpTerminateVDM; OpStep]
                                  (patterned_machine false))))
    by (vm_compute; reflexivity).
  split; [exact Hrun |].
  exact (proj2 (terminate_halts_silently_for_good (H := scenario_h false)
                  (patterned_machine false)) [OpStep] _ Hrun).
Defined.

(** X12 at the halted machine, stepped once and initialised again. *)
Lemma initialize_does_not_restart_witness :
  let g1 := returned_or halted_machine
              (run (H := scenario_h false) [OpStep] halted_machine) in
  VdmRunning halted_machine = false /\
  run (H := scenario_h false) [OpStep] halted_machine = Returned g1 /\
  VdmRunning (fst (EmulatorInitialize (H := scenario_h false) roomy_heap 3 7 g1))
    = false /\
  A20Line (fst (EmulatorInitialize (H := scenario_h false) roomy_heap 3 7 g1))
    = A20Line g1.
Proof.
  cbv zeta.
  assert (Hhalt : VdmRunning halted_machine = false) by reflexivity.
  assert (Hrun : run (H := scenario_h false) [OpStep] halted_machine
                 = Returned (returned_or halted_machine
                               (run (H := scenario_h false) [OpStep] halted_machine)))
    by (vm_compute; reflexivity).
  split; [exact Hhalt |]. split; [exact Hrun |].
  exact (initialize_does_not_restart (H := scenario_h false) roomy_heap 3 7
           _ _ [OpStep] Hhalt Hrun).
Defined.

(** X13 at seven calls of which three are steps, one after a fault. *)
Lemma run_counts_steps_witness :
  let g := patterned_machine false in
  let g' := returned_or g (run (H := scenario_h false) mixed_calls g) in
  run (H := scenario_h false) mixed_calls g = Returned g' /\
  steps_executed g'
  = (steps_executed g + List.length (filter is_step_op mixed_calls))%nat /\
  List.length (filter is_step_op mixed_calls) = 3%nat.
Proof.
  cbv zeta.
  assert (Hrun : run (H := scenario_h false) mixed_calls (patterned_machine false)
                 = Returned (returned_or (patterned_machine false)
                               (run (H := scenario_h false) mixed_calls
                                  (patterned_machine false))))
    by (vm_compute; reflexivity).
  split; [exact Hrun |].
  split; [| reflexivity].
  exact (run_counts_steps (H := scenario_h false) mixed_calls _ _ Hrun).
Defined.


(** C4 at the one-byte read and write at 0xB7FFF, the last byte of the
    scenario's video block. *)
Lemma C4_witness :
  let g := patterned_machine false in
  BaseAddress g = Some patterned_arena /\
  MAX_ADDRESS (emulator_h := scenario_h false) <= 2 ^ 32 /\
  VgaGetVideoBaseAddress (Vga g) <= a20_masked g 0xB7FFF /\
  a20_masked g 0xB7FFF = VgaGetVideoLimitAddress (Vga g) /\
  0 <= a20_masked g 0xB7FFF /\ 0 < 1 /\
  a20_masked g 0xB7FFF + 1 < MAX_ADDRESS (emulator_h := scenario_h false) /\
  (a20_masked g 0xB7FFF + 1 < ROM_AREA_START (emulator_h := scenario_h false)
   \/ ROM_AREA_END (emulator_h := scenario_h false) <= a20_masked g 0xB7FFF) /\
  List.length [x01] = Z.to_nat 1 /\
  EmulatorReadMemory (H := scenario_h false) g 0xB7FFF [x01] 1
    = Returned (g, load patterned_arena (a20_masked g 0xB7FFF) 1
                   ++ skipn (Z.to_nat 1) [x01]) /\
  EmulatorWriteMemory (H := scenario_h false) g 0xB7FFF [x01] 1
    = Returned (with_base (Some (store patterned_arena (a20_masked g 0xB7FFF) [x01])) g) /\
  Trace (with_base (Some (store patterned_arena (a20_masked g 0xB7FFF) [x01])) g)
    = Trace g /\
  Vga (with_base (Some (store patterned_arena (a20_masked g 0xB7FFF) [x01])) g) = Vga g.
Proof.
  cbv zeta.
  assert (Hb : BaseAddress (patterned_machine false) = Some patterned_arena)
    by reflexivity.
  assert (Hmax : MAX_ADDRESS (emulator_h := scenario_h false) <= 2 ^ 32) by by_running.
  assert (Hbase : VgaGetVideoBaseAddress (Vga (patterned_machine false))
                  <= a20_masked (patterned_machine false) 0xB7FFF) by by_running.
  assert (Hlimit : a20_masked (patterned_machine false) 0xB7FFF
                   = VgaGetVideoLimitAddress (Vga (patterned_machine false)))
    by by_running.
  assert (Ha : 0 <= a20_masked (patterned_machine false) 0xB7FFF) by by_running.
  assert (Hs : 0 < 1) by lia.
  assert (Hin : a20_masked (patterned_machine false) 0xB7FFF + 1
                < MAX_ADDRESS (emulator_h := scenario_h false)) by by_running.
  assert (Hrom : a20_masked (patterned_machine false) 0xB7FFF + 1
                 < ROM_AREA_START (emulator_h := scenario_h false)
                 \/ ROM_AREA_END (emulator_h := scenario_h false)
                    <= a20_masked (patterned_machine false) 0xB7FFF)
    by (left; by_running).
  assert (Hlen : List.length [x01] = Z.to_nat 1) by reflexivity.
  split; [exact Hb |]. split; [exact Hmax |]. split; [exact Hbase |].
  split; [exact Hlimit |]. split; [exact Ha |]. split; [exact Hs |].
  split; [exact Hin |]. split; [exact Hrom |]. split; [exact Hlen |].
  exact (C4_access_at_limit_skips_adapter (H := scenario_h false) _ _ 0xB7FFF [x01] 1
           Hb Hmax Hbase Hlimit Ha Hs Hin Hrom Hlen).
Defined.
